(** * DirectorV2 frontend: the Tailwind configuration, embedded in Rocq

    The repository's logic is one CommonJS module, [frontend/tailwind.config.js],
    which imports token tables from four sibling modules and assembles the
    record handed to the styling build tool.  This development embeds

    - the JavaScript values the module manipulates (strings, booleans, arrays,
      objects, functions) in [Module JS];
    - module loading ([require]) and destructuring as a small state-and-error
      monad over the registry of loaded modules in [Module Loader];
    - the token tables of [tailwind/theme.js] and [tailwind/safelist.js],
      literal for literal, in [Module Theme] and [Module Safelist];
    - the configuration module itself in [Module TailwindConfig], by the
      contents of its objects, and again in [Module Heap] with the objects in
      a heap.

    The token tables of [tailwind/colors.js] and [tailwind/spacing.js] are not
    embedded: the export objects of these two modules are parameters of every
    statement, which therefore holds whatever they export. *)

From stdpp Require Import gmap strings list fin_maps.

#[local] Set Warnings "-register-all,-clear-no-such-hyp".

(* ===================================================================== *)
(** * JavaScript values *)
(* ===================================================================== *)

Module JS.

(** A JavaScript value.  Objects are finite maps from property names to
    values, so two objects are equal when they have the same properties with
    equal values (the order in which properties are enumerated is not
    represented).  The parameter [F] is the type of function values, so that
    plain data is [value Empty_set]. *)
Inductive value (F : Type) : Type :=
  | VUndef
  | VNull
  | VBool (b : bool)
  | VStr (s : string)
  | VArr (l : list (value F))
  | VObj (m : gmap string (value F))
  | VFun (f : F).

Arguments VUndef {F}.
Arguments VNull {F}.
Arguments VBool {F} b.
Arguments VStr {F} s.
Arguments VArr {F} l.
Arguments VObj {F} m.
Arguments VFun {F} f.

(** An object literal [{ k1: v1, ..., kn: vn }]: properties are defined from
    left to right, a repeated key keeps the last value. *)
Definition props {F} (l : list (string * value F)) : gmap string (value F) :=
  fold_left (fun m kv => <[kv.1 := kv.2]> m) l ∅.

Definition obj {F} (l : list (string * value F)) : value F := VObj (props l).

(** An array literal of string literals. *)
Definition strs {F} (l : list string) : value F := VArr (VStr <$> l).

(** A property selector: [v.k] or [v[i]]. *)
Inductive sel : Type :=
  | Field (k : string)
  | Index (i : nat).

(** Reading a property.  [None] stands for a property that is absent. *)
Definition get {F} (s : sel) (v : value F) : option (value F) :=
  match s, v with
  | Field k, VObj m => m !! k
  | Index i, VArr l => l !! i
  | _, _ => None
  end.

(** Following a chain of selectors, [v.k1.k2...]. *)
Fixpoint get_path {F} (p : list sel) (v : value F) : option (value F) :=
  match p with
  | [] => Some v
  | s :: p' => match get s v with
               | Some w => get_path p' w
               | None => None
               end
  end.

(** The own property names of a value. *)
Definition keys {F} (v : value F) : gset string :=
  match v with
  | VObj m => dom m
  | _ => ∅
  end.

(** [undefined] and [null], the two values that have no properties and
    cannot be destructured. *)
Definition nullish {F} (v : value F) : bool :=
  match v with
  | VUndef | VNull => true
  | _ => false
  end.

(** The elements of an array. *)
Definition elems {F} (v : value F) : list (value F) :=
  match v with
  | VArr l => l
  | _ => []
  end.

(** Every value stored under the property name [n], at any depth. *)
Fixpoint named {F} (n : string) (v : value F) : list (value F) :=
  match v with
  | VArr l => concat (map (named n) l)
  | VObj m =>
      map_fold (fun k x acc =>
                  (if decide (k = n) then [x] else []) ++ named n x ++ acc)
               [] m
  | _ => []
  end.

(** [exposes v n t]: some chain of selectors ending in the field [n] leads
    from [v] to [t]. *)
Definition exposes {F} (v : value F) (n : string) (t : value F) : Prop :=
  ∃ p, get_path (p ++ [Field n]) v = Some t.

End JS.

Import JS.

(* ===================================================================== *)
(** * Module loading *)
(* ===================================================================== *)

Module Loader.

Inductive error : Type :=
  | MODULE_NOT_FOUND (id : string)
  | TypeError (msg : string).

Section Monad.
Context {F : Type}.

(** The registry maps a module identifier to the module's export object. *)
Definition registry : Type := gmap string (value F).

Definition M (A : Type) : Type := registry → (error + A) * registry.

Definition ret {A} (a : A) : M A := fun σ => (inr a, σ).

Definition throw {A} (e : error) : M A := fun σ => (inl e, σ).

Definition bind {A B} (c : M A) (k : A → M B) : M B :=
  fun σ => match c σ with
           | (inr a, σ') => k a σ'
           | (inl e, σ') => (inl e, σ')
           end.

(** [require(id)]: the export object of a registered module. *)
Definition require (id : string) : M (value F) :=
  fun σ => match σ !! id with
           | Some e => (inr e, σ)
           | None => (inl (MODULE_NOT_FOUND id), σ)
           end.

(** One name of a destructuring pattern [const { k } = e]: the property
    [k] of [e], [undefined] when [e] has no such property; destructuring
    [undefined] or [null] itself throws. *)
Definition destructure (k : string) (e : value F) : M (value F) :=
  match e with
  | VUndef | VNull => throw (TypeError "Cannot destructure")
  | _ => ret (default VUndef (get (Field k) e))
  end.

(** A computation that leaves the registry as it found it. *)
Definition read_only {A} (c : M A) : Prop := ∀ σ, (c σ).2 = σ.

#[export] Instance M_ret : MRet M := @ret.
#[export] Instance M_bind : MBind M := fun A B k c => bind c k.

End Monad.

Arguments registry F : clear implicits.
Arguments M F A : clear implicits.

End Loader.

Import Loader.

(* ===================================================================== *)
(** * The build tool's plugin interface *)
(* ===================================================================== *)

(** Component definitions handed to the build tool are plain data. *)
Definition css : Type := value Empty_set.

(** What a plugin function receives: the capability to register components
    with the build tool, whose own state [S] is opaque to the plugin. *)
Record PluginAPI (S : Type) : Type := { addComponents : css → S → S }.
Arguments addComponents {S} _ _ _.

(** A plugin is a function of the capabilities it is given; its effect is
    what it does to the build tool's state through them. *)
Definition plugin : Type := ∀ S : Type, PluginAPI S → S → S.

(** Values of the configuration: data and plugin functions. *)
Definition jsval : Type := value plugin.

(** A build tool that only records, in order, what plugins register. *)
Definition recorder : PluginAPI (list css) :=
  {| addComponents := fun c log => log ++ [c] |}.

(* ===================================================================== *)
(** * tailwind/theme.js *)
(* ===================================================================== *)

Module Theme.

Definition fontFamily : jsval := obj [
  ("primary", VStr "Inter");
  ("secondary", VStr "Gilroy");
  ("curgloria", VStr "Gloria Hallelujah")
].

Definition fontSize : jsval := obj [
  ("small", strs ["8px"; "12px"]);
  ("overline", VArr [
     VStr "10px";
     obj [
       ("lineHeight", VStr "16px");
       ("letterSpacing", VStr "0.04em");
       ("textTransform", VStr "uppercase")
     ]
   ]);
  ("captionsm", strs ["10px"; "12px"]);
  ("caption2", strs ["10px"; "16px"]);
  ("caption18", strs ["10px"; "20px"]);
  ("caption15", strs ["12px"; "14px"]);
  ("caption1", strs ["12px"; "20px"]);
  ("caption3", strs ["11px"; "16px"]);
  ("body", strs ["14px"; "24px"]);
  ("subheader", strs ["16px"; "24px"]);
  ("subheader2", strs ["18px"; "20px"]);
  ("title", strs ["20px"; "28px"]);
  ("heading2", strs ["24px"; "36px"]);
  ("heading1", strs ["28px"; "40px"]);
  ("display6", strs ["30px"; "35px"]);
  ("display5", strs ["36px"; "48px"]);
  ("display4", strs ["48px"; "56px"]);
  ("display3", strs ["56px"; "64px"]);
  ("display2", strs ["64px"; "72px"]);
  ("display1", strs ["80px"; "88px"])
].

Definition borderRadius : jsval := obj [
  ("2", VStr "2px");
  ("4", VStr "4px");
  ("6", VStr "6px");
  ("8", VStr "8px");
  ("12", VStr "12px");
  ("16", VStr "16px");
  ("20", VStr "20px");
  ("24", VStr "24px")
].

Definition borderWidth : jsval := obj [
  ("DEFAULT", VStr "1px");
  ("0", VStr "0");
  ("2", VStr "2px");
  ("3", VStr "3px");
  ("4", VStr "4px");
  ("6", VStr "6px");
  ("7", VStr "7px");
  ("8", VStr "8px")
].

Definition boxShadow : jsval := obj [
  ("none", VStr "none");
  ("1", VStr "0px 1px 1px rgba(0, 0, 0, 0.1)");
  ("2", VStr "0px 3px 3px rgba(0, 0, 0, 0.1)");
  ("3", VStr "0px 6px 6px rgba(0, 0, 0, 0.08)");
  ("4", VStr "0px 16px 16px rgba(0, 0, 0, 0.1)");
  ("5", VStr "0px 32px 40px rgba(0, 0, 0, 0.1)");
  ("spextlg", VStr "0px 5px 20px 1px rgba(0, 2, 40, 0.1)");
  ("searchbox", VStr "0px 4px 18x 0.5x rgba(0, 2, 40, 0.1)");
  ("up2", VStr "0px -3px 3px rgba(0, 0, 0, 0.08)");
  ("key", VStr "0px 4px 16px rgba(0, 2, 40, 0.35)");
  ("lg", VStr "0px 5px 20px 1px #DBE0E9");
  ("blur", VStr "0px 0px 6px rgba(0,0,0,0.1)");
  ("minimal-up", VStr "0px -1px 5px rgba(0, 0, 0, 0.1)");
  ("minimal-down", VStr "0px 1px 5px rgba(0, 0, 0, 0.1)")
].

Definition variants : jsval := obj [
  ("extend", obj [
     ("cursor", strs ["disabled"]);
     ("opacity", strs ["group-hover"]);
     ("backgroundColor", strs ["group-hover"]);
     ("background", strs ["group-hover"; "active"]);
     ("display", strs ["group-hover"]);
     ("border", strs ["group-hover"; "active"]);
     ("margin", strs ["group-hover"]);
     ("padding", strs ["group-hover"]);
     ("height", strs ["group-hover"]);
     ("width", strs ["group-hover"]);
     ("transform", strs ["group-hover"]);
     ("scale", strs ["group-hover"]);
     ("rotate", strs ["group-hover"]);
     ("translate", strs ["group-hover"]);
     ("skew", strs ["group-hover"]);
     ("transitionProperty", strs ["group-hover"]);
     ("transitionDuration", strs ["group-hover"]);
     ("transitionTimingFunction", strs ["group-hover"]);
     ("transitionDelay", strs ["group-hover"])
   ])
].

(** The module's export object: one property per [export const]. *)
Definition exports : jsval := obj [
  ("fontFamily", fontFamily);
  ("fontSize", fontSize);
  ("borderRadius", borderRadius);
  ("borderWidth", borderWidth);
  ("boxShadow", boxShadow);
  ("variants", variants)
].

End Theme.

(* ===================================================================== *)
(** * tailwind/safelist.js *)
(* ===================================================================== *)

Module Safelist.

Definition safelist : jsval := strs [
  "my-auto";
  "text-others-doctormanhattan";
  "text-others-superman";
  "text-kilvish";
  "text-red";
  "group-hover:border-kilvish-600";
  "group-hover:bg-others-superman100";
  "group-hover:border-others-superman";
  "group-hover:bg-kilvish-100";
  "group-hover:border-kilvish";
  "group-hover:bg-red-100";
  "group-hover:border-red";
  "group-hover:border-kilvish-600";
  "group-hover:border-others-doctormanhattan";
  "group-hover:bg-others-doctormanhattan-100";
  "max-h-288";
  "max-h-182"
].

Definition exports : jsval := obj [("safelist", safelist)].

End Safelist.

(* ===================================================================== *)
(** * tailwind.config.js *)
(* ===================================================================== *)

Module TailwindConfig.

(** The argument of the plugin's one call of [addComponents]. *)
Definition components : css := obj [
  (".container", obj [
     ("maxWidth", VStr "100%");
     ("paddingLeft", VStr "20px");
     ("paddingRight", VStr "20px");
     ("marginLeft", VStr "auto");
     ("marginRight", VStr "auto");
     ("@screen sm", obj [
        ("maxWidth", VStr "600px")
      ]);
     ("@screen md", obj [
        ("maxWidth", VStr "700px")
      ]);
     ("@screen lg", obj [
        ("maxWidth", VStr "1280px");
        ("paddingLeft", VStr "56px");
        ("paddingRight", VStr "56px")
      ]);
     ("@screen xl", obj [
        ("maxWidth", VStr "1344px")
      ])
   ])
].

(** [function ({ addComponents }) { addComponents({ ... }); }] *)
Definition container_plugin : plugin :=
  fun S api st => addComponents api components st.

Section Scope.
(** The module-level constants bound by the four imports. *)
Variables colors spacing minWidth maxWidth : jsval.
Variables fontFamily fontSize borderRadius borderWidth boxShadow variants : jsval.
Variable safelist : jsval.

(** The object literal assigned to [module.exports]. *)
Definition module_exports : jsval := obj [
  ("content", strs ["./src/**/*.{html,js,vue, ts}"]);
  ("options", obj [
     ("safelist", safelist)
   ]);
  ("enabled", VBool true);
  ("theme", obj [
     ("fontFamily", fontFamily);
     ("minWidth", minWidth);
     ("maxWidth", maxWidth);
     ("boxShadow", boxShadow);
     ("extend", obj [
        ("fontSize", fontSize);
        ("spacing", spacing);
        ("borderRadius", borderRadius);
        ("borderWidth", borderWidth);
        ("colors", colors)
      ])
   ]);
  ("variants", variants);
  ("corePlugins", obj [
     ("container", VBool false)
   ]);
  ("plugins", VArr [VFun container_plugin])
].
End Scope.

(** Evaluating the module: the four imports, then the export. *)
Definition tailwind_config : M plugin jsval :=
  m ← require "./tailwind/colors.js";
  colors ← destructure "colors" m;
  m ← require "./tailwind/spacing.js";
  spacing ← destructure "spacing" m;
  minWidth ← destructure "minWidth" m;
  maxWidth ← destructure "maxWidth" m;
  m ← require "./tailwind/theme.js";
  fontFamily ← destructure "fontFamily" m;
  fontSize ← destructure "fontSize" m;
  borderRadius ← destructure "borderRadius" m;
  borderWidth ← destructure "borderWidth" m;
  boxShadow ← destructure "boxShadow" m;
  variants ← destructure "variants" m;
  m ← require "./tailwind/safelist.js";
  safelist ← destructure "safelist" m;
  mret (module_exports colors spacing minWidth maxWidth
          fontFamily fontSize borderRadius borderWidth boxShadow variants
          safelist).

(** ** The repository's modules

    [tailwind/theme.js] and [tailwind/safelist.js] are the two modules
    above.  The export objects of [tailwind/colors.js] and
    [tailwind/spacing.js] are the parameters [colors_js] and
    [spacing_js]. *)
Definition modules (colors_js spacing_js : gmap string jsval) : registry plugin :=
  props [
    ("./tailwind/colors.js", VObj colors_js);
    ("./tailwind/spacing.js", VObj spacing_js);
    ("./tailwind/theme.js", Theme.exports);
    ("./tailwind/safelist.js", Safelist.exports)
  ].

(** The record the build tool obtains from a registry, if loading succeeds. *)
Definition exported (σ : registry plugin) : option jsval :=
  match tailwind_config σ with
  | (inr v, _) => Some v
  | (inl _, _) => None
  end.

(** What a module exports under a name, [undefined] if nothing. *)
Definition export (k : string) (m : gmap string jsval) : jsval :=
  default VUndef (m !! k).

(** The places of the token tables in the exported record. *)
Definition at_fontFamily := [Field "theme"; Field "fontFamily"].
Definition at_minWidth := [Field "theme"; Field "minWidth"].
Definition at_maxWidth := [Field "theme"; Field "maxWidth"].
Definition at_boxShadow := [Field "theme"; Field "boxShadow"].
Definition at_fontSize := [Field "theme"; Field "extend"; Field "fontSize"].
Definition at_spacing := [Field "theme"; Field "extend"; Field "spacing"].
Definition at_borderRadius := [Field "theme"; Field "extend"; Field "borderRadius"].
Definition at_borderWidth := [Field "theme"; Field "extend"; Field "borderWidth"].
Definition at_colors := [Field "theme"; Field "extend"; Field "colors"].
Definition at_variants := [Field "variants"].
Definition at_safelist := [Field "options"; Field "safelist"].

End TailwindConfig.

Import TailwindConfig.

(** An instance of the two parameter modules, exporting empty tables, for the
    statements that are about one concrete registry. *)
Module Sample.

Definition colors_js : gmap string jsval := props [("colors", obj [])].

Definition spacing_js : gmap string jsval :=
  props [("spacing", obj []); ("minWidth", obj []); ("maxWidth", obj [])].

Definition registry : registry plugin := modules colors_js spacing_js.

End Sample.

(* ===================================================================== *)
(** * tailwind.config.js over a heap *)
(* ===================================================================== *)

(** In the embedding above an object is its contents.  In JavaScript an
    object lives in the heap, an object literal allocates, and an imported
    table is shared by reference.  This second embedding of the same module
    makes the heap explicit, so that what evaluation does to the heap, and
    whether two evaluations give the same object or equal objects, can be
    stated. *)
Module Heap.

Definition loc : Type := nat.

(** A value as a variable or a property holds it: an object is held by
    reference. *)
Inductive hval : Type :=
  | HUndef
  | HNull
  | HBool (b : bool)
  | HStr (s : string)
  | HRef (l : loc)
  | HFun (f : plugin).

(** An object in the heap. *)
Inductive hobj : Type :=
  | HObj (fields : gmap string hval)
  | HArr (elements : list hval).

(** The heap, in allocation order, and the export values of the loaded
    modules. *)
Record store : Type := Store { heap : list hobj; loaded : gmap string hval }.

Definition H (A : Type) : Type := store → (error + A) * store.

Definition ret {A} (a : A) : H A := fun σ => (inr a, σ).

Definition throw {A} (e : error) : H A := fun σ => (inl e, σ).

Definition bind {A B} (c : H A) (k : A → H B) : H B :=
  fun σ => match c σ with
           | (inr a, σ') => k a σ'
           | (inl e, σ') => (inl e, σ')
           end.

#[export] Instance H_ret : MRet H := @ret.
#[export] Instance H_bind : MBind H := fun A B k c => bind c k.

(** Allocation: the new object goes to the end of the heap. *)
Definition alloc (o : hobj) : H hval :=
  fun σ => (inr (HRef (length (heap σ))),
            Store (heap σ ++ [o]) (loaded σ)).

Definition require (id : string) : H hval :=
  fun σ => match loaded σ !! id with
           | Some e => (inr e, σ)
           | None => (inl (MODULE_NOT_FOUND id), σ)
           end.

(** The property [k] of a value: [undefined] unless the value is a
    reference to an object that has the property. *)
Definition property (h : list hobj) (k : string) (e : hval) : hval :=
  match e with
  | HRef l => match h !! l with
              | Some (HObj m) => default HUndef (m !! k)
              | _ => HUndef
              end
  | _ => HUndef
  end.

Definition nullish (e : hval) : bool :=
  match e with
  | HUndef | HNull => true
  | _ => false
  end.

Definition destructure (k : string) (e : hval) : H hval :=
  if nullish e then throw (TypeError "Cannot destructure")
  else fun σ => (inr (property (heap σ) k e), σ).

Definition fields (l : list (string * hval)) : gmap string hval :=
  fold_left (fun m kv => <[kv.1 := kv.2]> m) l ∅.

(** Assignment [e.k = x] changes an object of the heap in place; assigning
    to a property of [undefined] or [null] throws.  The module has no
    assignment: this is the effect it is shown not to have. *)
Definition assign (e : hval) (k : string) (x : hval) : H unit :=
  fun σ =>
    match e with
    | HUndef | HNull => (inl (TypeError "Cannot set properties"), σ)
    | HRef l =>
        match heap σ !! l with
        | Some (HObj m) =>
            (inr (), Store (<[l := HObj (<[k := x]> m)]> (heap σ)) (loaded σ))
        | _ => (inr (), σ)
        end
    | _ => (inr (), σ)
    end.

(** A computation whose only effect on the store is allocation: it leaves
    the loaded modules and every object of the heap as they were, new
    objects coming after them. *)
Definition only_allocates {A} (c : H A) : Prop :=
  ∀ σ, heap σ `prefix_of` heap (c σ).2 ∧ loaded (c σ).2 = loaded σ.

(** Object and array literals allocate. *)
Definition new_object (l : list (string * hval)) : H hval :=
  alloc (HObj (fields l)).

Definition new_array (l : list hval) : H hval := alloc (HArr l).

(** The module: the four imports, then the literal assigned to
    [module.exports], its nested literals allocated before the object that
    holds them. *)
Definition tailwind_config : H hval :=
  m ← require "./tailwind/colors.js";
  colors ← destructure "colors" m;
  m ← require "./tailwind/spacing.js";
  spacing ← destructure "spacing" m;
  minWidth ← destructure "minWidth" m;
  maxWidth ← destructure "maxWidth" m;
  m ← require "./tailwind/theme.js";
  fontFamily ← destructure "fontFamily" m;
  fontSize ← destructure "fontSize" m;
  borderRadius ← destructure "borderRadius" m;
  borderWidth ← destructure "borderWidth" m;
  boxShadow ← destructure "boxShadow" m;
  variants ← destructure "variants" m;
  m ← require "./tailwind/safelist.js";
  safelist ← destructure "safelist" m;
  content ← new_array [HStr "./src/**/*.{html,js,vue, ts}"];
  options ← new_object [
    ("safelist", safelist)
  ];
  extend ← new_object [
    ("fontSize", fontSize);
    ("spacing", spacing);
    ("borderRadius", borderRadius);
    ("borderWidth", borderWidth);
    ("colors", colors)
  ];
  theme ← new_object [
    ("fontFamily", fontFamily);
    ("minWidth", minWidth);
    ("maxWidth", maxWidth);
    ("boxShadow", boxShadow);
    ("extend", extend)
  ];
  corePlugins ← new_object [
    ("container", HBool false)
  ];
  plugins ← new_array [HFun container_plugin];
  new_object [
    ("content", content);
    ("options", options);
    ("enabled", HBool true);
    ("theme", theme);
    ("variants", variants);
    ("corePlugins", corePlugins);
    ("plugins", plugins)
  ].

(** Reading a heap value back as contents, following references to the
    depth [n]; a reference beyond that depth, or to nothing, reads as
    [undefined]. *)
Fixpoint reify (n : nat) (h : list hobj) (v : hval) : jsval :=
  match v with
  | HUndef => VUndef
  | HNull => VNull
  | HBool b => VBool b
  | HStr s => VStr s
  | HFun f => VFun f
  | HRef l =>
      match n with
      | 0 => VUndef
      | S n' =>
          match h !! l with
          | Some (HObj m) => VObj (reify n' h <$> m)
          | Some (HArr xs) => VArr (reify n' h <$> xs)
          | None => VUndef
          end
      end
  end.

(** Storing contents in the heap, nested objects first. *)
Fixpoint store_value (v : jsval) (h : list hobj) : hval * list hobj :=
  match v with
  | VUndef => (HUndef, h)
  | VNull => (HNull, h)
  | VBool b => (HBool b, h)
  | VStr s => (HStr s, h)
  | VFun f => (HFun f, h)
  | VArr xs =>
      let '(ys, h') :=
        fold_left (fun acc x =>
                     let '(y, h') := store_value x acc.2 in (acc.1 ++ [y], h'))
                  xs ([], h) in
      (HRef (length h'), h' ++ [HArr ys])
  | VObj m =>
      let '(fs, h') :=
        map_fold (fun k x acc =>
                    let '(y, h') := store_value x acc.2 in
                    (<[k := y]> acc.1, h'))
                 (∅, h) m in
      (HRef (length h'), h' ++ [HObj fs])
  end.

(** A store holding the given modules' export values. *)
Definition store_modules (l : list (string * jsval)) : store :=
  fold_left (fun σ kv =>
               let '(e, h') := store_value kv.2 (heap σ) in
               Store h' (<[kv.1 := e]> (loaded σ)))
            l (Store [] ∅).

(** A module can be imported from when it is loaded, its export value is
    neither [undefined] nor [null], and, if a reference, refers to an
    object of the heap. *)
Definition usable (σ : store) (id : string) : Prop :=
  ∃ e, loaded σ !! id = Some e ∧ nullish e = false
       ∧ ∀ l, e = HRef l → l < length (heap σ).

(** Two values with the same contents in a heap, at every depth. *)
Definition same_contents (h : list hobj) (v1 v2 : hval) : Prop :=
  ∀ n, reify n h v1 = reify n h v2.

(** The seven objects one evaluation allocates from the heap size [b] on,
    given the imported values. *)
Definition allocated (b : nat)
    (colors spacing minWidth maxWidth : hval)
    (fontFamily fontSize borderRadius borderWidth boxShadow variants : hval)
    (safelist : hval) : list hobj :=
  [HArr [HStr "./src/**/*.{html,js,vue, ts}"];
   HObj (fields [("safelist", safelist)]);
   HObj (fields [("fontSize", fontSize); ("spacing", spacing);
                 ("borderRadius", borderRadius);
                 ("borderWidth", borderWidth); ("colors", colors)]);
   HObj (fields [("fontFamily", fontFamily); ("minWidth", minWidth);
                 ("maxWidth", maxWidth); ("boxShadow", boxShadow);
                 ("extend", HRef (b + 2))]);
   HObj (fields [("container", HBool false)]);
   HArr [HFun container_plugin];
   HObj (fields [("content", HRef b); ("options", HRef (b + 1));
                 ("enabled", HBool true); ("theme", HRef (b + 3));
                 ("variants", variants); ("corePlugins", HRef (b + 4));
                 ("plugins", HRef (b + 5))])].

End Heap.

(** The sample registry, stored in a heap. *)
Definition sample_store : Heap.store :=
  Heap.store_modules [
    ("./tailwind/colors.js", VObj Sample.colors_js);
    ("./tailwind/spacing.js", VObj Sample.spacing_js);
    ("./tailwind/theme.js", Theme.exports);
    ("./tailwind/safelist.js", Safelist.exports)
  ].

(* ===================================================================== *)
(** * Breakpoints of a responsive rule *)
(* ===================================================================== *)

(** The breakpoints of the [@screen] blocks of the [.container] rule, in the
    order the source writes the blocks.  This is also the ascending order
    of the build tool's screens of these names, which the configuration
    does not redefine. *)
Definition screens : list string := ["sm"; "md"; "lg"; "xl"].

(** The key under which a rule holds its block for a breakpoint. *)
Definition screen_block (b : string) : string := "@screen " +:+ b.

(** The breakpoints up to and including [b]. *)
Fixpoint through (b : string) (l : list string) : list string :=
  match l with
  | [] => []
  | x :: l' => if decide (x = b) then [x] else x :: through b l'
  end.

(** The declaration of the property [k] in force at a breakpoint, [None]
    being the base.  The build tool turns an [@screen] block into a
    min-width media query, so at a breakpoint the base declarations and the
    blocks of the breakpoints up to it all apply, and of several
    declarations of one property the one written last prevails. *)
Definition in_force (rule : css) (k : string) (b : option string) : option css :=
  match b with
  | None => get (Field k) rule
  | Some b =>
      fold_left (fun d x =>
                   match get_path [Field (screen_block x); Field k] rule with
                   | Some d' => Some d'
                   | None => d
                   end)
                (through b screens) (get (Field k) rule)
  end.

(* ===================================================================== *)
(** * Names and places used in the statements *)
(* ===================================================================== *)

(** The thirteen names of the schema the build tool is said to expect. *)
Definition schema : list string :=
  ["fontFamily"; "fontSize"; "spacing"; "minWidth"; "maxWidth";
   "borderRadius"; "borderWidth"; "boxShadow"; "colors"; "variants";
   "safelist"; "corePlugins"; "plugins"].

(** Where the exported record holds each of them. *)
Definition schema_places : list (string * list sel) :=
  [("fontFamily", at_fontFamily); ("fontSize", at_fontSize);
   ("spacing", at_spacing); ("minWidth", at_minWidth);
   ("maxWidth", at_maxWidth); ("borderRadius", at_borderRadius);
   ("borderWidth", at_borderWidth); ("boxShadow", at_boxShadow);
   ("colors", at_colors); ("variants", at_variants);
   ("safelist", at_safelist); ("corePlugins", [Field "corePlugins"]);
   ("plugins", [Field "plugins"])].

(** The eleven input token tables, each with its place in the exported
    record. *)
Definition input_tables (cj sj : gmap string jsval) : list (list sel * jsval) :=
  [(at_fontFamily, Theme.fontFamily); (at_fontSize, Theme.fontSize);
   (at_borderRadius, Theme.borderRadius); (at_borderWidth, Theme.borderWidth);
   (at_boxShadow, Theme.boxShadow); (at_variants, Theme.variants);
   (at_safelist, Safelist.safelist); (at_spacing, export "spacing" sj);
   (at_minWidth, export "minWidth" sj); (at_maxWidth, export "maxWidth" sj);
   (at_colors, export "colors" cj)].

(* ===================================================================== *)
(** * The imports, and shapes of table entries *)
(* ===================================================================== *)

(** The four modules, in the order [tailwind.config.js] requires them. *)
Definition module_ids : list string :=
  ["./tailwind/colors.js"; "./tailwind/spacing.js"; "./tailwind/theme.js";
   "./tailwind/safelist.js"].

(** The eleven imported names: the module each is destructured from, and
    the place of its value in the exported record. *)
Definition imports : list (string * string * list sel) :=
  [("./tailwind/colors.js", "colors", at_colors);
   ("./tailwind/spacing.js", "spacing", at_spacing);
   ("./tailwind/spacing.js", "minWidth", at_minWidth);
   ("./tailwind/spacing.js", "maxWidth", at_maxWidth);
   ("./tailwind/theme.js", "fontFamily", at_fontFamily);
   ("./tailwind/theme.js", "fontSize", at_fontSize);
   ("./tailwind/theme.js", "borderRadius", at_borderRadius);
   ("./tailwind/theme.js", "borderWidth", at_borderWidth);
   ("./tailwind/theme.js", "boxShadow", at_boxShadow);
   ("./tailwind/theme.js", "variants", at_variants);
   ("./tailwind/safelist.js", "safelist", at_safelist)].

(** What [const { k } = e] binds [k] to, for an [e] that can be
    destructured. *)
Definition imported (k : string) (e : jsval) : jsval :=
  default VUndef (get (Field k) e).

(** A module can be imported from when it is registered and its export
    value is neither [undefined] nor [null]. *)
Definition usable (σ : registry plugin) (id : string) : Prop :=
  ∃ e, σ !! id = Some e ∧ nullish e = false.

(** The error of importing from a module that is not usable. *)
Definition import_error (σ : registry plugin) (id : string) : error :=
  match σ !! id with
  | None => MODULE_NOT_FOUND id
  | Some _ => TypeError "Cannot destructure"
  end.

(** A string of one or more decimal digits followed by [px]. *)
Definition is_digit (c : Ascii.ascii) : bool :=
  let n := Ascii.nat_of_ascii c in (48 <=? n)%nat && (n <=? 57)%nat.

Fixpoint skip_digits (s : string) : string :=
  match s with
  | String c s' => if is_digit c then skip_digits s' else s
  | EmptyString => s
  end.

Definition is_px (s : string) : bool :=
  String.eqb (skip_digits s) "px"
  && negb (String.length s =? 2)%nat.

(** A check on every property of an object; [false] on other values. *)
Definition all_props {F} (P : string → value F → bool) (v : value F) : bool :=
  match v with
  | VObj m => map_fold (λ k x acc, P k x && acc) true m
  | _ => false
  end.

(** An entry of a font-size table: a size with a line height, the line
    height given as a string or in an object of further settings. *)
Definition is_font_size_entry (x : jsval) : bool :=
  match x with
  | VArr [VStr size; VStr lineHeight] => is_px size && is_px lineHeight
  | VArr [VStr size; VObj settings] =>
      is_px size
      && match settings !! "lineHeight" with
         | Some (VStr lineHeight) => is_px lineHeight
         | _ => false
         end
  | _ => false
  end.

(** An entry of a variants table: a non-empty array of the state modifiers
    the tables of this repository use. *)
Definition is_modifier (x : jsval) : bool :=
  match x with
  | VStr s => bool_decide (s ∈ ["disabled"; "group-hover"; "active"])
  | _ => false
  end.

Definition is_modifier_list (x : jsval) : bool :=
  match x with
  | VArr (y :: l) => forallb is_modifier (y :: l)
  | _ => false
  end.

(** An entry of a table of pixel sizes keyed by their number: the key
    followed by [px]. *)
Definition is_px_of_key (k : string) (x : jsval) : bool :=
  match x with
  | VStr s => String.eqb s (k +:+ "px")
  | _ => false
  end.

(** The names [tailwind.config.js] destructures from a module. *)
Definition imported_names (id : string) : list string :=
  (λ imp, imp.1.2) <$> filter (λ imp, imp.1.1 = id) imports.

(** The string literals among the elements of an array. *)
Definition literals (v : jsval) : list string :=
  omap (λ x, match x with VStr s => Some s | _ => None end) (elems v).

(* ===================================================================== *)
(** * Facts about values *)
(* ===================================================================== *)

Section NamedFacts.
Context {F : Type}.
Implicit Types (v t x : value F) (m : gmap string (value F)) (n k : string).

Lemma named_obj_unfold n m :
  named n (VObj m)
  = map_fold (fun k x acc =>
                (if decide (k = n) then [x] else []) ++ named n x ++ acc)
             [] m.
Proof. reflexivity. Qed.

(** A property of an object, and everything found below it, is found from
    the object. *)
Lemma named_obj n m k x :
  m !! k = Some x →
  (k = n → x ∈ named n (VObj m)) ∧ (∀ t, t ∈ named n x → t ∈ named n (VObj m)).
Proof.
  rewrite named_obj_unfold. revert k x.
  apply (map_fold_weak_ind
           (fun r m => ∀ k x, m !! k = Some x →
              (k = n → x ∈ r) ∧ (∀ t, t ∈ named n x → t ∈ r))).
  - intros k x Hk. by rewrite lookup_empty in Hk.
  - intros i y m' r Hfresh IH k x Hk.
    destruct (decide (i = k)) as [->|Hne].
    + rewrite lookup_insert_eq in Hk. injection Hk as ->. split.
      * intros ->. rewrite decide_True by done.
        apply elem_of_app. left. apply list_elem_of_here.
      * intros t Ht. apply elem_of_app. right. apply elem_of_app. by left.
    + rewrite lookup_insert_ne in Hk by done.
      destruct (IH k x Hk) as [IH1 IH2]. split.
      * intros Hkn. apply elem_of_app. right. apply elem_of_app. right.
        by apply IH1.
      * intros t Ht. apply elem_of_app. right. apply elem_of_app. right.
        by apply IH2.
Qed.

Lemma named_arr n (l : list (value F)) i x t :
  l !! i = Some x → t ∈ named n x → t ∈ named n (VArr l).
Proof.
  intros Hi Ht. cbn [named]. apply list_elem_of_In, in_concat.
  exists (named n x). split.
  - apply in_map, list_elem_of_In. by eapply list_elem_of_lookup_2.
  - by apply list_elem_of_In.
Qed.

(** [named] collects every value that a chain of selectors ending in the
    field [n] can reach. *)
Lemma named_complete n p v t :
  get_path (p ++ [Field n]) v = Some t → t ∈ named n v.
Proof.
  revert v. induction p as [|s p IH]; intros v; cbn [app get_path].
  - destruct (get (Field n) v) as [w|] eqn:Hw; [|done].
    intros [= ->]. destruct v; try done. cbn in Hw.
    destruct (named_obj n m n t Hw) as [Hhere _]. by apply Hhere.
  - destruct (get s v) as [w|] eqn:Hw; [|done].
    intros Hp. specialize (IH w Hp).
    destruct s as [k|i], v; try done; cbn in Hw.
    + destruct (named_obj n m k w Hw) as [_ Hbelow]. by apply Hbelow.
    + by eapply named_arr.
Qed.

Lemma not_exposes n v : named n v = [] → ∀ t, ¬ exposes v n t.
Proof.
  intros Hnil t [p Hp]. apply named_complete in Hp.
  rewrite Hnil in Hp. by apply not_elem_of_nil in Hp.
Qed.

Lemma exposes_at p n v t : get_path (p ++ [Field n]) v = Some t → exposes v n t.
Proof. intros Hp. by exists p. Qed.

End NamedFacts.

(** In an object literal a repeated key keeps the value declared last. *)
Example literal_last_wins :
  get (Field "a") (obj [("a", VStr "x"); ("b", VBool true); ("a", VStr "y")]
                     : css)
  = Some (VStr "y").
Proof. reflexivity. Qed.

(** Objects are compared by their properties, not by declaration order. *)
Example literal_order_irrelevant :
  (obj [("a", VStr "x"); ("b", VBool true)] : css)
  = obj [("b", VBool true); ("a", VStr "x")].
Proof. reflexivity. Qed.

Lemma get_path_app {F} (p q : list sel) (v : value F) :
  get_path (p ++ q) v = get_path p v ≫= get_path q.
Proof.
  revert v. induction p as [|s p IH]; intros v; cbn [app get_path]; [done|].
  destruct (get s v) as [w|]; [apply IH | done].
Qed.

Lemma get_path_snoc {F} (p : list sel) (s : sel) (v t x : value F) :
  get_path p v = Some t → get s t = Some x → get_path (p ++ [s]) v = Some x.
Proof.
  intros Hp Hs. rewrite get_path_app, Hp. cbn. by rewrite Hs.
Qed.

(* ===================================================================== *)
(** * Facts about loading *)
(* ===================================================================== *)

Section LoaderFacts.
Context {F : Type}.

Lemma ret_read_only {A} (a : A) : read_only (mret a : M F A).
Proof. done. Qed.

Lemma require_read_only id : read_only (require (F:=F) id).
Proof. intros σ. unfold require. by destruct (σ !! id). Qed.

Lemma destructure_read_only k (e : value F) : read_only (destructure k e).
Proof. intros σ. by destruct e. Qed.

Lemma bind_read_only {A B} (c : M F A) (k : A → M F B) :
  read_only c → (∀ a, read_only (k a)) → read_only (c ≫= k).
Proof.
  intros Hc Hk σ. unfold mbind, M_bind, bind.
  specialize (Hc σ). destruct (c σ) as [[e|a] σ1]; cbn in *; subst σ1.
  - done.
  - apply Hk.
Qed.

(** A sequence that returns went through both of its parts. *)
Lemma bind_inr {A B} (c : M F A) (k : A → M F B) σ b σ' :
  (c ≫= k) σ = (inr b, σ') →
  ∃ a σ1, c σ = (inr a, σ1) ∧ k a σ1 = (inr b, σ').
Proof.
  unfold mbind, M_bind, bind. destruct (c σ) as [[e|a] σ1]; [done|].
  intros Hk. by exists a, σ1.
Qed.

Lemma ret_inr {A} (a b : A) (σ σ' : registry F) :
  (mret a : M F A) σ = (inr b, σ') → a = b.
Proof. by intros [= -> _]. Qed.

End LoaderFacts.

Lemma tailwind_config_read_only : read_only tailwind_config.
Proof.
  unfold tailwind_config.
  repeat (apply bind_read_only;
          [first [apply require_read_only | apply destructure_read_only]
          |intros ?]).
  apply ret_read_only.
Qed.

Lemma tailwind_config_loads (cj sj : gmap string jsval) :
  tailwind_config (modules cj sj)
  = (inr (module_exports (export "colors" cj) (export "spacing" sj)
            (export "minWidth" sj) (export "maxWidth" sj)
            Theme.fontFamily Theme.fontSize Theme.borderRadius
            Theme.borderWidth Theme.boxShadow Theme.variants
            Safelist.safelist),
     modules cj sj).
Proof. reflexivity. Qed.


Lemma exported_modules (cj sj : gmap string jsval) :
  exported (modules cj sj)
  = Some (module_exports (export "colors" cj) (export "spacing" sj)
            (export "minWidth" sj) (export "maxWidth" sj)
            Theme.fontFamily Theme.fontSize Theme.borderRadius
            Theme.borderWidth Theme.boxShadow Theme.variants
            Safelist.safelist).
Proof. unfold exported. by rewrite tailwind_config_loads. Qed.

(** Statements about the record exported on the repository's modules start
    by naming that record. *)
Ltac on_export := eexists; split; [apply exported_modules|].

(** Without its modules the configuration does not load: the first import
    fails, and nothing is exported. *)
Example empty_registry_fails :
  tailwind_config ∅ = (inl (MODULE_NOT_FOUND "./tailwind/colors.js"), ∅)
  ∧ exported ∅ = None.
Proof. split; reflexivity. Qed.

(** A module that exports nothing under a name binds it to [undefined]. *)
Example missing_export_is_undefined :
  get_path at_colors <$> exported (modules ∅ ∅) = Some (Some VUndef).
Proof. reflexivity. Qed.

(** A module whose export value is [null] cannot be destructured. *)
Example null_module_fails :
  tailwind_config (<["./tailwind/colors.js" := VNull]> Sample.registry)
  = (inl (TypeError "Cannot destructure"),
     <["./tailwind/colors.js" := VNull]> Sample.registry).
Proof. reflexivity. Qed.

(** Whatever the registry, a record that is exported is the object literal
    over some values of the imported names. *)
Lemma exported_literal (σ : registry plugin) (v : jsval) :
  exported σ = Some v →
  ∃ colors spacing minWidth maxWidth
    fontFamily fontSize borderRadius borderWidth boxShadow variants safelist,
    v = module_exports colors spacing minWidth maxWidth
          fontFamily fontSize borderRadius borderWidth boxShadow variants
          safelist.
Proof.
  unfold exported.
  destruct (tailwind_config σ) as [[e|v'] σ'] eqn:Hrun; [done|].
  intros [= ->]. unfold tailwind_config in Hrun.
  repeat (apply bind_inr in Hrun as (? & ? & _ & Hrun)).
  apply ret_inr in Hrun. repeat eexists. by symmetry.
Qed.

(* ===================================================================== *)
(** * The shape of the exported record *)
(* ===================================================================== *)

(** The top-level fields of the object literal, whatever the imports. *)
Lemma module_exports_keys
    (colors spacing minWidth maxWidth : jsval)
    (fontFamily fontSize borderRadius borderWidth boxShadow variants : jsval)
    (safelist : jsval) :
  keys (module_exports colors spacing minWidth maxWidth
          fontFamily fontSize borderRadius borderWidth boxShadow variants
          safelist)
  = {[ "content"; "options"; "enabled"; "theme"; "variants"; "corePlugins";
       "plugins" ]}.
Proof.
  unfold module_exports, obj, props, keys. cbn [fold_left fst snd].
  rewrite !dom_insert_L, dom_empty_L. set_solver.
Qed.

(** C1, as stated, fails: on the sample registry the exported record does not
    have all thirteen schema names as top-level fields ([fontFamily], for one,
    is not a top-level field). *)
Lemma schema_not_top_level :
  ∃ v, exported Sample.registry = Some v ∧ ¬ (∀ n, n ∈ schema → n ∈ keys v).
Proof.
  on_export.
  intros Hall. specialize (Hall "fontFamily").
  rewrite module_exports_keys in Hall.
  assert (Hin : "fontFamily" ∈ schema) by apply list_elem_of_here.
  specialize (Hall Hin). set_solver.
Qed.

(** C1, amended: the exported record has exactly the seven top-level fields
    [content], [options], [enabled], [theme], [variants], [corePlugins] and
    [plugins].  Of the thirteen schema names only [variants], [corePlugins]
    and [plugins] are top-level fields; each of the thirteen is a field of
    the record at its place: [fontFamily], [minWidth], [maxWidth] and
    [boxShadow] in [theme], [fontSize], [spacing], [borderRadius],
    [borderWidth] and [colors] in [theme.extend], [safelist] in [options]. *)
Theorem exported_record_shape (cj sj : gmap string jsval) :
  ∃ v, exported (modules cj sj) = Some v
     ∧ keys v = {[ "content"; "options"; "enabled"; "theme"; "variants";
                   "corePlugins"; "plugins" ]}
     ∧ filter (λ n, n ∈ keys v) schema = ["variants"; "corePlugins"; "plugins"]
     ∧ schema_places.*1 = schema
     ∧ Forall (λ np, last np.2 = Some (Field np.1) ∧ is_Some (get_path np.2 v))
              schema_places.
Proof.
  on_export.
  split; [apply module_exports_keys|].
  split; [by rewrite module_exports_keys|].
  split; [done|].
  repeat constructor; by eexists.
Qed.

(* ===================================================================== *)
(** * Token tables in the exported record *)
(* ===================================================================== *)

(** Each imported table sits unchanged at its place in the object literal. *)
Lemma module_exports_places
    (colors spacing minWidth maxWidth : jsval)
    (fontFamily fontSize borderRadius borderWidth boxShadow variants : jsval)
    (safelist : jsval) :
  Forall (λ pt, get_path pt.1
                  (module_exports colors spacing minWidth maxWidth
                     fontFamily fontSize borderRadius borderWidth boxShadow
                     variants safelist) = Some pt.2)
    [(at_fontFamily, fontFamily); (at_fontSize, fontSize);
     (at_borderRadius, borderRadius); (at_borderWidth, borderWidth);
     (at_boxShadow, boxShadow); (at_variants, variants);
     (at_safelist, safelist); (at_spacing, spacing);
     (at_minWidth, minWidth); (at_maxWidth, maxWidth); (at_colors, colors)].
Proof. repeat constructor. Qed.

(** C2, as stated, fails: on the sample registry no chain of fields of the
    exported record ends in a field named [variantExtensions]. *)
Lemma no_variantExtensions_field :
  ∃ v, exported Sample.registry = Some v
     ∧ ∀ t, ¬ exposes v "variantExtensions" t.
Proof.
  on_export.
  apply not_exposes. vm_compute. reflexivity.
Qed.

(** C2, amended: the composed record holds each source token table,
    unchanged, in a field of the table's name: [fontFamily] and [boxShadow]
    in [theme], [fontSize], [borderRadius] and [borderWidth] in
    [theme.extend], [variants] at the top level and [safelist] in [options].
    The variant-extension rules are the field [variants]: no field is named
    [variantExtensions], neither at the top level nor in [options], [theme]
    or [theme.extend].  [theme.extend] is the nested extension bag, holding
    exactly [fontSize], [spacing], [borderRadius], [borderWidth] and
    [colors], next to the replacing fields [fontFamily], [minWidth],
    [maxWidth] and [boxShadow] of [theme]. *)
Theorem exported_tables_in_place (cj sj : gmap string jsval) :
  ∃ v, exported (modules cj sj) = Some v
     ∧ get_path [Field "theme"; Field "fontFamily"] v = Some Theme.fontFamily
     ∧ get_path [Field "theme"; Field "extend"; Field "fontSize"] v
       = Some Theme.fontSize
     ∧ get_path [Field "theme"; Field "extend"; Field "borderRadius"] v
       = Some Theme.borderRadius
     ∧ get_path [Field "theme"; Field "extend"; Field "borderWidth"] v
       = Some Theme.borderWidth
     ∧ get_path [Field "theme"; Field "boxShadow"] v = Some Theme.boxShadow
     ∧ get_path [Field "variants"] v = Some Theme.variants
     ∧ get_path [Field "options"; Field "safelist"] v = Some Safelist.safelist
     ∧ Forall (λ nt, exposes v nt.1 nt.2)
         [("fontFamily", Theme.fontFamily); ("fontSize", Theme.fontSize);
          ("borderRadius", Theme.borderRadius);
          ("borderWidth", Theme.borderWidth);
          ("boxShadow", Theme.boxShadow); ("variants", Theme.variants);
          ("safelist", Safelist.safelist)]
     ∧ keys v = {[ "content"; "options"; "enabled"; "theme"; "variants";
                   "corePlugins"; "plugins" ]}
     ∧ keys <$> get (Field "options") v = Some {[ "safelist" ]}
     ∧ keys <$> get (Field "theme") v
       = Some {[ "fontFamily"; "minWidth"; "maxWidth"; "boxShadow"; "extend" ]}
     ∧ keys <$> get_path [Field "theme"; Field "extend"] v
       = Some {[ "fontSize"; "spacing"; "borderRadius"; "borderWidth";
                 "colors" ]}
     ∧ Forall (λ p, ∃ w, get_path p v = Some w
                       ∧ "variantExtensions" ∉ keys w)
         [[]; [Field "options"]; [Field "theme"];
          [Field "theme"; Field "extend"]].
Proof.
  on_export.
  do 7 (split; [reflexivity|]).
  split.
  { repeat constructor.
    - by apply (exposes_at [Field "theme"]).
    - by apply (exposes_at [Field "theme"; Field "extend"]).
    - by apply (exposes_at [Field "theme"; Field "extend"]).
    - by apply (exposes_at [Field "theme"; Field "extend"]).
    - by apply (exposes_at [Field "theme"]).
    - by apply (exposes_at []).
    - by apply (exposes_at [Field "options"]). }
  split; [apply module_exports_keys|].
  do 3 (split; [reflexivity|]).
  repeat (apply Forall_cons; split;
          [eexists; split; [reflexivity|];
           unfold module_exports, obj; cbn [keys snd];
           intros [x Hx]%elem_of_dom; by vm_compute in Hx|]).
  by apply Forall_nil.
Qed.

(* ===================================================================== *)
(** * The content glob *)
(* ===================================================================== *)

(** C3: evaluated on the code, the content glob is not the string the claim
    gives.  The [content] array holds one pattern, whose last alternative has
    a space after the comma; it is not the pattern without the space, and the
    array has no second element. *)
Theorem content_glob_has_space (cj sj : gmap string jsval) :
  ∃ v, exported (modules cj sj) = Some v
     ∧ get (Field "content") v
       = Some (VArr [VStr "./src/**/*.{html,js,vue, ts}"])
     ∧ get_path [Field "content"; Index 0] v
       = Some (VStr "./src/**/*.{html,js,vue, ts}")
     ∧ get_path [Field "content"; Index 0] v
       ≠ Some (VStr "./src/**/*.{html,js,vue,ts}")
     ∧ get_path [Field "content"; Index 1] v = None.
Proof.
  on_export. split; [reflexivity|]. split; [reflexivity|].
  split; [|reflexivity].
  by intros [=].
Qed.

(* ===================================================================== *)
(** * The plugin *)
(* ===================================================================== *)

(** The [xl] block of the rule does not itself declare a padding: of the two
    largest breakpoints, only the [lg] block does. *)
Lemma xl_declares_no_padding :
  ∃ c, container_plugin _ recorder [] = [c]
     ∧ ¬ Forall
           (λ b, get_path [Field ".container"; Field b; Field "paddingLeft"] c
                 = Some (VStr "56px")
               ∧ get_path [Field ".container"; Field b; Field "paddingRight"] c
                 = Some (VStr "56px"))
           ["@screen lg"; "@screen xl"].
Proof.
  eexists. split; [reflexivity|].
  intros Hall. apply Forall_cons_1 in Hall as [_ Hxl].
  apply Forall_cons_1 in Hxl as [[Hleft _] _]. by vm_compute in Hleft.
Qed.

(** What the plugin callback registers, declaration by declaration: one call
    of [addComponents], with one [.container] rule; the [maxWidth] declared
    in each of the four [@screen] blocks, the padding declared at the base
    and in the [lg] block, and nothing but [maxWidth] in the other blocks. *)
Theorem container_rule_emitted (cj sj : gmap string jsval) :
  (∃ v, exported (modules cj sj) = Some v
      ∧ get (Field "plugins") v = Some (VArr [VFun container_plugin]))
  ∧ (∀ S (api : PluginAPI S) (st : S),
       container_plugin S api st = addComponents api components st)
  ∧ container_plugin _ recorder [] = [components]
  ∧ keys components = {[ ".container" ]}
  ∧ keys <$> get (Field ".container") components
    = Some {[ "maxWidth"; "paddingLeft"; "paddingRight"; "marginLeft";
              "marginRight"; "@screen sm"; "@screen md"; "@screen lg";
              "@screen xl" ]}
  ∧ (λ b, get_path [Field ".container"; Field b; Field "maxWidth"] components)
      <$> ["@screen sm"; "@screen md"; "@screen lg"; "@screen xl"]
    = [Some (VStr "600px"); Some (VStr "700px"); Some (VStr "1280px");
       Some (VStr "1344px")]
  ∧ (λ k, get_path [Field ".container"; Field k] components)
      <$> ["paddingLeft"; "paddingRight"]
    = [Some (VStr "20px"); Some (VStr "20px")]
  ∧ (λ k, get_path [Field ".container"; Field "@screen lg"; Field k] components)
      <$> ["paddingLeft"; "paddingRight"]
    = [Some (VStr "56px"); Some (VStr "56px")]
  ∧ (λ b, keys <$> get_path [Field ".container"; Field b] components)
      <$> ["@screen sm"; "@screen md"; "@screen xl"]
    = [Some {[ "maxWidth" ]}; Some {[ "maxWidth" ]}; Some {[ "maxWidth" ]}].
Proof.
  split.
  { eexists. split; [apply exported_modules | reflexivity]. }
  repeat split; reflexivity.
Qed.

(** C4: the registered plugin callback emits exactly one [.container]
    component rule, with the four breakpoint overrides [sm], [md], [lg] and
    [xl].  The [maxWidth] in force at these breakpoints is 600px, 700px,
    1280px and 1344px respectively; [paddingLeft] and [paddingRight] are
    20px at the base, and 56px at each of the largest two breakpoints, [lg]
    and [xl] (declared in the [lg] block, which still applies at [xl]).
    The configuration leaves the build tool's screens as they are: neither
    [theme] nor [theme.extend] has a field [screens]. *)
Theorem container_rule_responsive (cj sj : gmap string jsval) :
  (∃ v, exported (modules cj sj) = Some v
      ∧ get (Field "plugins") v = Some (VArr [VFun container_plugin])
      ∧ keys <$> get (Field "theme") v
        = Some {[ "fontFamily"; "minWidth"; "maxWidth"; "boxShadow";
                  "extend" ]}
      ∧ keys <$> get_path [Field "theme"; Field "extend"] v
        = Some {[ "fontSize"; "spacing"; "borderRadius"; "borderWidth";
                  "colors" ]})
  ∧ (∀ S (api : PluginAPI S) (st : S),
       container_plugin S api st = addComponents api components st)
  ∧ container_plugin _ recorder [] = [components]
  ∧ keys components = {[ ".container" ]}
  ∧ ∃ rule, get (Field ".container") components = Some rule
    ∧ keys rule
      = {[ "maxWidth"; "paddingLeft"; "paddingRight"; "marginLeft";
           "marginRight" ]} ∪ list_to_set (screen_block <$> screens)
    ∧ (λ b, in_force rule "maxWidth" (Some b)) <$> screens
      = [Some (VStr "600px"); Some (VStr "700px"); Some (VStr "1280px");
         Some (VStr "1344px")]
    ∧ (λ k, in_force rule k None) <$> ["paddingLeft"; "paddingRight"]
      = [Some (VStr "20px"); Some (VStr "20px")]
    ∧ Forall (λ b, ((λ k, in_force rule k (Some b))
                      <$> ["paddingLeft"; "paddingRight"])
                   = [Some (VStr "56px"); Some (VStr "56px")])
        ["lg"; "xl"]
    ∧ Forall (λ b, ((λ k, in_force rule k (Some b))
                      <$> ["paddingLeft"; "paddingRight"])
                   = [Some (VStr "20px"); Some (VStr "20px")])
        ["sm"; "md"].
Proof.
  split.
  { on_export. split; [reflexivity|]. split; reflexivity. }
  split; [reflexivity|]. split; [reflexivity|]. split; [reflexivity|].
  eexists. split; [reflexivity|].
  split; [reflexivity|]. split; [reflexivity|]. split; [reflexivity|].
  split; repeat constructor.
Qed.

(* ===================================================================== *)
(** * The safelist *)
(* ===================================================================== *)

(** C5: every string literal of the source safelist array is, unchanged, an
    element of the safelist of the composed configuration, which is an
    ordered sequence of literal strings (the source array itself, in its
    order). *)
Theorem safelist_superset (cj sj : gmap string jsval) (x : jsval) :
  x ∈ elems Safelist.safelist →
  ∃ v sl, exported (modules cj sj) = Some v
        ∧ get_path at_safelist v = Some sl
        ∧ x ∈ elems sl
        ∧ (∃ s : string, x = VStr s)
        ∧ (∃ l : list string, sl = VArr (VStr <$> l))
        ∧ sl = Safelist.safelist.
Proof.
  intros Hx. eexists _, Safelist.safelist.
  split; [apply exported_modules|]. split; [reflexivity|].
  split; [exact Hx|]. split.
  - unfold Safelist.safelist, strs in Hx. cbn [elems] in Hx.
    apply list_elem_of_fmap in Hx as (s & -> & _). by exists s.
  - split; [|reflexivity]. by eexists.
Qed.

Lemma safelist_superset_witness :
  (VStr "my-auto" : jsval) ∈ elems Safelist.safelist
  ∧ ∃ v sl, exported Sample.registry = Some v
          ∧ get_path at_safelist v = Some sl
          ∧ (VStr "my-auto" : jsval) ∈ elems sl
          ∧ (∃ s : string, (VStr "my-auto" : jsval) = VStr s)
          ∧ (∃ l : list string, sl = VArr (VStr <$> l))
          ∧ sl = Safelist.safelist.
Proof.
  split.
  - apply list_elem_of_here.
  - apply (safelist_superset Sample.colors_js Sample.spacing_js).
    apply list_elem_of_here.
Defined.

(* ===================================================================== *)
(** * Purity *)
(* ===================================================================== *)

(* ===================================================================== *)
(** * Evaluation over the heap *)
(* ===================================================================== *)

Lemma heap_require_bind {A} (σ : Heap.store) id (e : Heap.hval)
    (k : Heap.hval → Heap.H A) :
  Heap.loaded σ !! id = Some e → Heap.bind (Heap.require id) k σ = k e σ.
Proof. intros He. unfold Heap.bind, Heap.require. by rewrite He. Qed.

Lemma heap_destructure_bind {A} (σ : Heap.store) name (e : Heap.hval)
    (k : Heap.hval → Heap.H A) :
  Heap.nullish e = false →
  Heap.bind (Heap.destructure name e) k σ
  = k (Heap.property (Heap.heap σ) name e) σ.
Proof. intros He. unfold Heap.bind, Heap.destructure. by rewrite He. Qed.

Lemma heap_alloc_bind {A} (σ : Heap.store) (o : Heap.hobj)
    (k : Heap.hval → Heap.H A) :
  Heap.bind (Heap.alloc o) k σ
  = k (Heap.HRef (length (Heap.heap σ)))
      (Heap.Store (Heap.heap σ ++ [o]) (Heap.loaded σ)).
Proof. reflexivity. Qed.

Section OnlyAllocates.

Lemma ret_only_allocates {A} (a : A) : Heap.only_allocates (Heap.ret a).
Proof. by intros σ. Qed.

Lemma require_only_allocates id : Heap.only_allocates (Heap.require id).
Proof. intros σ. unfold Heap.require. by destruct (Heap.loaded σ !! id). Qed.

Lemma destructure_only_allocates k e :
  Heap.only_allocates (Heap.destructure k e).
Proof. intros σ. unfold Heap.destructure. by destruct (Heap.nullish e). Qed.

Lemma alloc_only_allocates o : Heap.only_allocates (Heap.alloc o).
Proof. intros σ. split; [by eexists | done]. Qed.

Lemma bind_only_allocates {A B} (c : Heap.H A) (k : A → Heap.H B) :
  Heap.only_allocates c → (∀ a, Heap.only_allocates (k a)) →
  Heap.only_allocates (Heap.bind c k).
Proof.
  intros Hc Hk σ. unfold Heap.bind.
  destruct (Hc σ) as [Hheap Hloaded].
  destruct (c σ) as [[e|a] σ1]; cbn [snd] in *; [done|].
  destruct (Hk a σ1) as [Hheap' Hloaded']. split.
  - by etrans.
  - by rewrite Hloaded'.
Qed.

End OnlyAllocates.

(** Whatever the store, and whether it returns or throws, evaluating the
    module only allocates. *)
Lemma tailwind_config_only_allocates :
  Heap.only_allocates Heap.tailwind_config.
Proof.
  unfold Heap.tailwind_config, mbind, Heap.H_bind.
  repeat (apply bind_only_allocates;
          [first [ apply require_only_allocates
                 | apply destructure_only_allocates
                 | apply alloc_only_allocates ]
          |intros ?]).
  apply alloc_only_allocates.
Qed.

(** An assignment does not: it is an effect that [only_allocates] rules
    out. *)
Example assign_not_only_allocates :
  ¬ Heap.only_allocates (Heap.assign (Heap.HRef 0) "enabled" (Heap.HBool false)).
Proof.
  intros Hno.
  destruct (Hno (Heap.Store [Heap.HObj ∅] ∅)) as [[k Hk] _].
  pose proof (f_equal (λ h, match h with
                            | Heap.HObj m :: _ => m !! "enabled"
                            | _ => None
                            end) Hk) as Hk'.
  by vm_compute in Hk'.
Qed.

(** One evaluation, from usable modules: it returns a reference to the last
    of seven objects it appends to the heap. *)
Lemma heap_run (h : list Heap.hobj) (L : gmap string Heap.hval)
    (mc ms mt ml : Heap.hval) :
  L !! "./tailwind/colors.js" = Some mc → Heap.nullish mc = false →
  L !! "./tailwind/spacing.js" = Some ms → Heap.nullish ms = false →
  L !! "./tailwind/theme.js" = Some mt → Heap.nullish mt = false →
  L !! "./tailwind/safelist.js" = Some ml → Heap.nullish ml = false →
  Heap.tailwind_config (Heap.Store h L)
  = (inr (Heap.HRef (length h + 6)),
     Heap.Store
       (h ++ Heap.allocated (length h)
               (Heap.property h "colors" mc) (Heap.property h "spacing" ms)
               (Heap.property h "minWidth" ms) (Heap.property h "maxWidth" ms)
               (Heap.property h "fontFamily" mt) (Heap.property h "fontSize" mt)
               (Heap.property h "borderRadius" mt)
               (Heap.property h "borderWidth" mt)
               (Heap.property h "boxShadow" mt) (Heap.property h "variants" mt)
               (Heap.property h "safelist" ml))
       L).
Proof.
  intros Hc Hcn Hs Hsn Ht Htn Hl Hln.
  unfold Heap.tailwind_config, mbind, Heap.H_bind.
  rewrite (heap_require_bind _ _ mc) by done.
  rewrite heap_destructure_bind by done.
  rewrite (heap_require_bind _ _ ms) by done.
  rewrite !heap_destructure_bind by done.
  rewrite (heap_require_bind _ _ mt) by done.
  rewrite !heap_destructure_bind by done.
  rewrite (heap_require_bind _ _ ml) by done.
  rewrite !heap_destructure_bind by done.
  unfold Heap.new_object, Heap.new_array.
  rewrite !heap_alloc_bind. unfold Heap.alloc.
  cbn [Heap.heap Heap.loaded]. unfold Heap.allocated.
  rewrite <- !app_assoc. cbn [app]. rewrite !length_app. cbn [length].
  reflexivity.
Qed.

(** Reading a property of an object of the heap is not affected by later
    allocations. *)
Lemma property_app (h k' : list Heap.hobj) (k : string) (e : Heap.hval) :
  (∀ l, e = Heap.HRef l → l < length h) →
  Heap.property (h ++ k') k e = Heap.property h k e.
Proof.
  intros He. destruct e as [| | | |l|]; try done. cbn [Heap.property].
  by rewrite lookup_app_l by by apply He.
Qed.

Lemma lookup_from_base {A} (h k' : list A) (i : nat) :
  (h ++ k') !! (length h + i) = k' !! i.
Proof.
  rewrite lookup_app_r by lia. f_equal. lia.
Qed.

Section SameContents.
Variable h : list Heap.hobj.

Lemma same_contents_refl (v : Heap.hval) : Heap.same_contents h v v.
Proof. by intros n. Qed.

(** Two objects with pairwise equal contents under each key have equal
    contents. *)
Lemma same_contents_obj (l1 l2 : Heap.loc) (m1 m2 : gmap string Heap.hval) :
  h !! l1 = Some (Heap.HObj m1) →
  h !! l2 = Some (Heap.HObj m2) →
  (∀ k, option_Forall2 (Heap.same_contents h) (m1 !! k) (m2 !! k)) →
  Heap.same_contents h (Heap.HRef l1) (Heap.HRef l2).
Proof.
  intros H1 H2 Hk [|n]; [done|]. cbn [Heap.reify]. rewrite H1, H2. f_equal.
  apply map_eq. intros k. rewrite !lookup_fmap.
  destruct (Hk k) as [x y Hxy|]; cbn; [|done]. f_equal. apply Hxy.
Qed.

Lemma same_contents_arr (l1 l2 : Heap.loc) (xs ys : list Heap.hval) :
  h !! l1 = Some (Heap.HArr xs) →
  h !! l2 = Some (Heap.HArr ys) →
  Forall2 (Heap.same_contents h) xs ys →
  Heap.same_contents h (Heap.HRef l1) (Heap.HRef l2).
Proof.
  intros H1 H2 Hxy [|n]; [done|]. cbn [Heap.reify]. rewrite H1, H2. f_equal.
  clear H1 H2. induction Hxy as [|x y xs' ys' Hx _ IH]; [done|].
  rewrite !fmap_cons. f_equal; [apply Hx | apply IH].
Qed.

Lemma same_fields_empty (k : string) :
  option_Forall2 (Heap.same_contents h)
    ((∅ : gmap string Heap.hval) !! k) ((∅ : gmap string Heap.hval) !! k).
Proof. rewrite lookup_empty. constructor. Qed.

Lemma same_fields_insert (a : string) (x y : Heap.hval)
    (m1 m2 : gmap string Heap.hval) :
  Heap.same_contents h x y →
  (∀ k, option_Forall2 (Heap.same_contents h) (m1 !! k) (m2 !! k)) →
  ∀ k, option_Forall2 (Heap.same_contents h)
         (<[a := x]> m1 !! k) (<[a := y]> m2 !! k).
Proof.
  intros Hxy Hm k. destruct (decide (a = k)) as [->|Hne].
  - rewrite !lookup_insert_eq. by constructor.
  - rewrite !lookup_insert_ne by done. apply Hm.
Qed.

End SameContents.

(** Solves [same_contents] goals on object literals with the same keys, once
    the heap lookups are known. *)
Ltac same_fields :=
  unfold Heap.fields; cbn [fold_left fst snd];
  repeat (apply same_fields_insert; [|]);
  try (intros ?; apply same_fields_empty).

(** Two runs, one after the other, from usable modules. *)
Lemma heap_run_twice (σ : Heap.store) :
  Forall (Heap.usable σ) module_ids →
  ∃ c s mn mx ff fs br bw bs va sl,
    let h := Heap.heap σ in
    let O1 := Heap.allocated (length h) c s mn mx ff fs br bw bs va sl in
    let O2 := Heap.allocated (length (h ++ O1))
                c s mn mx ff fs br bw bs va sl in
    Heap.tailwind_config σ
    = (inr (Heap.HRef (length h + 6)), Heap.Store (h ++ O1) (Heap.loaded σ))
    ∧ Heap.tailwind_config (Heap.Store (h ++ O1) (Heap.loaded σ))
      = (inr (Heap.HRef (length (h ++ O1) + 6)),
         Heap.Store ((h ++ O1) ++ O2) (Heap.loaded σ)).
Proof.
  destruct σ as [h L]. unfold module_ids. rewrite !Forall_cons.
  intros ((mc & Hc & Hcn & Hca) & (ms & Hs & Hsn & Hsa)
          & (mt & Ht & Htn & Hta) & (ml & Hl & Hln & Hla) & _).
  cbn [Heap.heap Heap.loaded] in *.
  eexists _, _, _, _, _, _, _, _, _, _, _. cbn zeta. split.
  - by apply (heap_run h L mc ms mt ml).
  - rewrite (heap_run _ L mc ms mt ml) by done.
    by rewrite !property_app by done.
Qed.

Lemma lookup_first_run {A} (h O1 O2 : list A) (i : nat) (o : A) :
  O1 !! i = Some o → ((h ++ O1) ++ O2) !! (length h + i) = Some o.
Proof.
  intros Hi. rewrite <- app_assoc, lookup_from_base.
  by apply lookup_app_l_Some.
Qed.

Lemma lookup_first_run_0 {A} (h O1 O2 : list A) (o : A) :
  O1 !! 0 = Some o → ((h ++ O1) ++ O2) !! (length h) = Some o.
Proof.
  intros Hi. replace (length h) with (length h + 0) by lia.
  by apply lookup_first_run.
Qed.

Lemma lookup_second_run {A} (h O2 : list A) (i : nat) (o : A) :
  O2 !! i = Some o → (h ++ O2) !! (length h + i) = Some o.
Proof. intros Hi. by rewrite lookup_from_base. Qed.

Lemma lookup_second_run_0 {A} (h O2 : list A) (o : A) :
  O2 !! 0 = Some o → (h ++ O2) !! (length h) = Some o.
Proof.
  intros Hi. replace (length h) with (length h + 0) by lia.
  by apply lookup_second_run.
Qed.

Ltac heap_lookup :=
  first [ eapply lookup_first_run_0; reflexivity
        | eapply lookup_first_run; reflexivity
        | eapply lookup_second_run_0; reflexivity
        | eapply lookup_second_run; reflexivity ].

Ltac same_value :=
  first [ apply same_contents_refl
        | eapply same_contents_arr;
          [ heap_lookup | heap_lookup
          | repeat (constructor; [apply same_contents_refl|]); constructor ]
        | eapply same_contents_obj;
          [ heap_lookup | heap_lookup | same_fields; same_value ] ].

(** C6: composing is pure and deterministic, over the heap.  Whatever the
    store, evaluating the module changes neither the loaded modules nor any
    object that is in the heap, its only effect being allocation.  From
    usable modules, evaluating it twice returns two records: distinct
    objects, allocated after everything that was in the heap, with equal
    contents at every depth, each with the seven top-level fields. *)
Theorem compose_twice_equal (σ : Heap.store) :
  Forall (Heap.usable σ) module_ids →
  Heap.only_allocates Heap.tailwind_config
  ∧ ∃ r1 σ1 r2 σ2,
    Heap.tailwind_config σ = (inr r1, σ1)
    ∧ Heap.tailwind_config σ1 = (inr r2, σ2)
    ∧ Heap.loaded σ1 = Heap.loaded σ
    ∧ Heap.loaded σ2 = Heap.loaded σ
    ∧ Heap.heap σ `prefix_of` Heap.heap σ1
    ∧ Heap.heap σ1 `prefix_of` Heap.heap σ2
    ∧ r1 ≠ r2
    ∧ Heap.same_contents (Heap.heap σ2) r1 r2
    ∧ Forall (λ r, ∃ l m, r = Heap.HRef l
                        ∧ Heap.heap σ2 !! l = Some (Heap.HObj m)
                        ∧ dom m = {[ "content"; "options"; "enabled"; "theme";
                                     "variants"; "corePlugins"; "plugins" ]})
        [r1; r2].
Proof.
  intros Hall. split; [apply tailwind_config_only_allocates|].
  destruct (heap_run_twice σ Hall)
    as (c & s & mn & mx & ff & fs & br & bw & bs & va & sl & Hrun1 & Hrun2).
  cbn zeta in Hrun1, Hrun2.
  eexists _, _, _, _. split; [exact Hrun1|]. split; [exact Hrun2|].
  cbn [Heap.heap Heap.loaded].
  split; [done|]. split; [done|].
  split; [by eexists|]. split; [by eexists|].
  split.
  { intros [= Heq]. rewrite length_app in Heq. cbn [length Heap.allocated] in Heq. lia. }
  split.
  - same_value.
  - repeat constructor; eexists _, _;
      (split; [reflexivity|]; split; [heap_lookup|]);
      unfold Heap.fields; cbn [fold_left fst snd];
      rewrite !dom_insert_L, dom_empty_L; set_solver.
Qed.

Lemma compose_twice_equal_witness :
  Forall (Heap.usable sample_store) module_ids
  ∧ Heap.only_allocates Heap.tailwind_config
  ∧ ∃ r1 σ1 r2 σ2,
      Heap.tailwind_config sample_store = (inr r1, σ1)
      ∧ Heap.tailwind_config σ1 = (inr r2, σ2)
      ∧ Heap.loaded σ1 = Heap.loaded sample_store
      ∧ Heap.loaded σ2 = Heap.loaded sample_store
      ∧ Heap.heap sample_store `prefix_of` Heap.heap σ1
      ∧ Heap.heap σ1 `prefix_of` Heap.heap σ2
      ∧ r1 ≠ r2
      ∧ Heap.same_contents (Heap.heap σ2) r1 r2
      ∧ Forall (λ r, ∃ l m, r = Heap.HRef l
                          ∧ Heap.heap σ2 !! l = Some (Heap.HObj m)
                          ∧ dom m = {[ "content"; "options"; "enabled";
                                       "theme"; "variants"; "corePlugins";
                                       "plugins" ]})
          [r1; r2].
Proof.
  assert (Hlen : length (Heap.heap sample_store) = 56) by reflexivity.
  assert (Hall : Forall (Heap.usable sample_store) module_ids).
  { unfold module_ids. repeat (apply Forall_cons; split); [| | | |done].
    - exists (Heap.HRef 1). split; [reflexivity|]. split; [reflexivity|].
      intros l [= <-]. rewrite Hlen. lia.
    - exists (Heap.HRef 5). split; [reflexivity|]. split; [reflexivity|].
      intros l [= <-]. rewrite Hlen. lia.
    - exists (Heap.HRef 53). split; [reflexivity|]. split; [reflexivity|].
      intros l [= <-]. rewrite Hlen. lia.
    - exists (Heap.HRef 55). split; [reflexivity|]. split; [reflexivity|].
      intros l [= <-]. rewrite Hlen. lia. }
  split; [exact Hall|]. exact (compose_twice_equal sample_store Hall).
Defined.

(** On the sample store the two evaluations return the objects 62 and 69 of
    the heap, and each reads back as the record that the embedding by
    contents exports on the sample registry: the two embeddings of the
    module agree. *)
Example sample_store_records :
  (Heap.tailwind_config sample_store).1 = inr (Heap.HRef 62)
  ∧ (Heap.tailwind_config (Heap.tailwind_config sample_store).2).1
    = inr (Heap.HRef 69)
  ∧ Forall (λ r,
      Some (Heap.reify 8
              (Heap.heap
                 (Heap.tailwind_config (Heap.tailwind_config sample_store).2).2)
              r)
      = exported Sample.registry)
      [Heap.HRef 62; Heap.HRef 69].
Proof.
  split; [reflexivity|]. split; [reflexivity|].
  unfold Sample.registry. rewrite exported_modules.
  apply Forall_cons; split; [f_equal; reflexivity|].
  apply Forall_cons; split; [f_equal; reflexivity|]. done.
Qed.

(** Storing contents in a heap and reading them back gives the contents. *)
Example store_value_reify :
  Heap.reify 8 (Heap.store_value Theme.exports []).2
    (Heap.store_value Theme.exports []).1
  = Theme.exports.
Proof. reflexivity. Qed.


(* ===================================================================== *)
(** * Completeness *)
(* ===================================================================== *)

(** C7: for every input token table and every key present in it, the
    composed record contains that key with its value, at the table's place.
    A key is a property name, or an index for the safelist array. *)
Theorem compose_complete (cj sj : gmap string jsval)
    (p : list sel) (T : jsval) (k : sel) (x : jsval) :
  (p, T) ∈ input_tables cj sj →
  get k T = Some x →
  ∃ v, exported (modules cj sj) = Some v
     ∧ get_path p v = Some T
     ∧ get_path (p ++ [k]) v = Some x.
Proof.
  intros HT Hk. on_export.
  pose proof (module_exports_places
                (export "colors" cj) (export "spacing" sj)
                (export "minWidth" sj) (export "maxWidth" sj)
                Theme.fontFamily Theme.fontSize Theme.borderRadius
                Theme.borderWidth Theme.boxShadow Theme.variants
                Safelist.safelist) as Hplaces.
  rewrite Forall_forall in Hplaces. specialize (Hplaces (p, T) HT).
  cbn [fst snd] in Hplaces. split; [exact Hplaces|].
  by eapply get_path_snoc.
Qed.

Lemma compose_complete_witness :
  (at_fontSize, Theme.fontSize)
    ∈ input_tables Sample.colors_js Sample.spacing_js
  ∧ get (Field "title") Theme.fontSize = Some (strs ["20px"; "28px"])
  ∧ ∃ v, exported Sample.registry = Some v
       ∧ get_path at_fontSize v = Some Theme.fontSize
       ∧ get_path (at_fontSize ++ [Field "title"]) v
         = Some (strs ["20px"; "28px"]).
Proof.
  assert (Hin : (at_fontSize, Theme.fontSize)
                  ∈ input_tables Sample.colors_js Sample.spacing_js).
  { apply list_elem_of_further, list_elem_of_here. }
  split; [exact Hin|]. split; [reflexivity|].
  exact (compose_complete Sample.colors_js Sample.spacing_js
           at_fontSize Theme.fontSize (Field "title") _ Hin eq_refl).
Defined.

(* ===================================================================== *)
(** * Scenarios *)
(* ===================================================================== *)

(** C8: the input table has [fontSize.body = ["14px", "24px"]], and the
    composed record's [fontSize.body] (in [theme.extend]) is exactly that
    array, untransformed. *)
Theorem fontSize_body_verbatim (cj sj : gmap string jsval) :
  get (Field "body") Theme.fontSize = Some (VArr [VStr "14px"; VStr "24px"])
  ∧ ∃ v, exported (modules cj sj) = Some v
       ∧ get_path [Field "theme"; Field "extend"; Field "fontSize";
                   Field "body"] v
         = Some (VArr [VStr "14px"; VStr "24px"])
       ∧ get_path [Field "theme"; Field "extend"; Field "fontSize";
                   Field "body"] v
         = get (Field "body") Theme.fontSize.
Proof.
  split; [reflexivity|].
  on_export. split; reflexivity.
Qed.

(** C9: the [searchbox] shadow, with its unit suffixes [18x] and [0.5x], goes
    through composition verbatim: the composed record's
    [boxShadow.searchbox] is the source string, not a form with [px]. *)
Theorem searchbox_shadow_verbatim (cj sj : gmap string jsval) :
  get (Field "searchbox") Theme.boxShadow
  = Some (VStr "0px 4px 18x 0.5x rgba(0, 2, 40, 0.1)")
  ∧ ∃ v, exported (modules cj sj) = Some v
       ∧ get_path [Field "theme"; Field "boxShadow"; Field "searchbox"] v
         = Some (VStr "0px 4px 18x 0.5x rgba(0, 2, 40, 0.1)")
       ∧ get_path [Field "theme"; Field "boxShadow"; Field "searchbox"] v
         ≠ Some (VStr "0px 4px 18px 0.5px rgba(0, 2, 40, 0.1)").
Proof.
  split; [reflexivity|].
  on_export. split; [reflexivity|].
  by intros [=].
Qed.

(* ===================================================================== *)
(** * Core plugins *)
(* ===================================================================== *)

(** C10: in every evaluation of the configuration that exports a record,
    whatever the registry, [corePlugins] is [{ container: false }], and the
    record's only plugin is the callback that registers the [.container]
    rule. *)
Theorem core_container_disabled (σ : registry plugin) (v : jsval) :
  exported σ = Some v →
  get_path [Field "corePlugins"; Field "container"] v = Some (VBool false)
  ∧ keys <$> get (Field "corePlugins") v = Some {[ "container" ]}
  ∧ get (Field "plugins") v = Some (VArr [VFun container_plugin])
  ∧ container_plugin _ recorder [] = [components]
  ∧ ".container" ∈ keys components.
Proof.
  intros Hv.
  apply exported_literal in Hv
    as (c & s & mn & mx & ff & fs & br & bw & bs & va & sl & ->).
  split; [reflexivity|]. split; [reflexivity|]. split; [reflexivity|].
  split; [reflexivity|]. apply elem_of_dom. by eexists.
Qed.

Lemma core_container_disabled_witness :
  ∃ v, exported Sample.registry = Some v
     ∧ get_path [Field "corePlugins"; Field "container"] v = Some (VBool false)
     ∧ keys <$> get (Field "corePlugins") v = Some {[ "container" ]}
     ∧ get (Field "plugins") v = Some (VArr [VFun container_plugin])
     ∧ container_plugin _ recorder [] = [components]
     ∧ ".container" ∈ keys components.
Proof.
  eexists. split; [reflexivity|].
  exact (core_container_disabled Sample.registry _ eq_refl).
Defined.

(* ===================================================================== *)
(** * Importing, on any registry *)
(* ===================================================================== *)

Lemma usable_dec (σ : registry plugin) (id : string) :
  usable σ id ∨ ¬ usable σ id.
Proof.
  unfold usable. destruct (σ !! id) as [e|].
  - destruct (nullish e) eqn:He.
    + right. intros (e' & [= <-] & He'). congruence.
    + left. by exists e.
  - right. by intros (e & He & _).
Qed.

(** Importing from a usable module binds the names and goes on. *)
Lemma require_bind {A} (σ : registry plugin) id (e : jsval)
    (k : jsval → M plugin A) :
  σ !! id = Some e → (require id ≫= k) σ = k e σ.
Proof.
  intros He. unfold jsval in *.
  unfold mbind, M_bind, bind, require. cbv beta. by rewrite He.
Qed.

Lemma destructure_defined {A} (σ : registry plugin) name (e : jsval)
    (k : jsval → M plugin A) :
  nullish e = false → (destructure name e ≫= k) σ = k (imported name e) σ.
Proof. intros He. by destruct e. Qed.

(** Importing from a module that is not usable throws at once. *)
Lemma require_unusable {A} (σ : registry plugin) id name
    (k : jsval → jsval → M plugin A) :
  ¬ usable σ id →
  (require id ≫= λ m, destructure name m ≫= k m) σ = (inl (import_error σ id), σ).
Proof.
  intros Hun. unfold usable, jsval in *.
  unfold mbind, M_bind, bind, require, import_error. cbv beta.
  destruct (σ !! id) as [e|] eqn:He; [|done].
  destruct e; try done; exfalso; apply Hun; eexists; split; reflexivity.
Qed.

(** What evaluation gives when all four modules are usable. *)
Lemma tailwind_config_usable (σ : registry plugin) (ec es et el : jsval) :
  σ !! "./tailwind/colors.js" = Some ec → nullish ec = false →
  σ !! "./tailwind/spacing.js" = Some es → nullish es = false →
  σ !! "./tailwind/theme.js" = Some et → nullish et = false →
  σ !! "./tailwind/safelist.js" = Some el → nullish el = false →
  tailwind_config σ
  = (inr (module_exports (imported "colors" ec) (imported "spacing" es)
            (imported "minWidth" es) (imported "maxWidth" es)
            (imported "fontFamily" et) (imported "fontSize" et)
            (imported "borderRadius" et) (imported "borderWidth" et)
            (imported "boxShadow" et) (imported "variants" et)
            (imported "safelist" el)), σ).
Proof.
  intros Hc Hcd Hs Hsd Ht Htd Hl Hld. unfold tailwind_config.
  rewrite (require_bind _ _ _ _ Hc); cbv beta.
  rewrite destructure_defined by done.
  rewrite (require_bind _ _ _ _ Hs); cbv beta.
  rewrite !destructure_defined by done.
  rewrite (require_bind _ _ _ _ Ht); cbv beta.
  rewrite !destructure_defined by done.
  rewrite (require_bind _ _ _ _ Hl); cbv beta.
  rewrite !destructure_defined by done.
  reflexivity.
Qed.

Lemma usable_all (σ : registry plugin) :
  Forall (usable σ) module_ids →
  ∃ ec es et el,
    (σ !! "./tailwind/colors.js" = Some ec ∧ nullish ec = false)
    ∧ (σ !! "./tailwind/spacing.js" = Some es ∧ nullish es = false)
    ∧ (σ !! "./tailwind/theme.js" = Some et ∧ nullish et = false)
    ∧ (σ !! "./tailwind/safelist.js" = Some el ∧ nullish el = false).
Proof.
  unfold module_ids. rewrite !Forall_cons.
  intros ((ec & ?) & (es & ?) & (et & ?) & (el & ?) & _).
  by exists ec, es, et, el.
Qed.

(** What evaluation gives when a module is not usable and those required
    before it are. *)
Lemma tailwind_config_unusable (σ : registry plugin) (i : nat) (id : string) :
  module_ids !! i = Some id →
  Forall (usable σ) (take i module_ids) →
  ¬ usable σ id →
  tailwind_config σ = (inl (import_error σ id), σ).
Proof.
  intros Hi Hbefore Hun. unfold tailwind_config.
  destruct i as [|[|[|[|i]]]]; cbn in Hi; try done; injection Hi as <-;
    cbn [take module_ids] in Hbefore; rewrite ?Forall_cons in Hbefore.
  - by apply require_unusable.
  - destruct Hbefore as ((ec & Hc & Hcd) & _).
    rewrite (require_bind _ _ _ _ Hc); cbv beta.
    rewrite destructure_defined by done.
    by apply require_unusable.
  - destruct Hbefore as ((ec & Hc & Hcd) & (es & Hs & Hsd) & _).
    rewrite (require_bind _ _ _ _ Hc); cbv beta.
    rewrite destructure_defined by done.
    rewrite (require_bind _ _ _ _ Hs); cbv beta.
    rewrite !destructure_defined by done.
    by apply require_unusable.
  - destruct Hbefore as ((ec & Hc & Hcd) & (es & Hs & Hsd) & (et & Ht & Htd) & _).
    rewrite (require_bind _ _ _ _ Hc); cbv beta.
    rewrite destructure_defined by done.
    rewrite (require_bind _ _ _ _ Hs); cbv beta.
    rewrite !destructure_defined by done.
    rewrite (require_bind _ _ _ _ Ht); cbv beta.
    rewrite !destructure_defined by done.
    by apply require_unusable.
Qed.

(** Some module is the first that is not usable, unless all are. *)
Lemma first_unusable (σ : registry plugin) :
  Forall (usable σ) module_ids
  ∨ ∃ i id, module_ids !! i = Some id
          ∧ Forall (usable σ) (take i module_ids)
          ∧ ¬ usable σ id.
Proof.
  unfold module_ids.
  destruct (usable_dec σ "./tailwind/colors.js") as [Hc|Hc];
    [|right; exists 0, "./tailwind/colors.js"; by repeat split].
  destruct (usable_dec σ "./tailwind/spacing.js") as [Hs|Hs];
    [|right; exists 1, "./tailwind/spacing.js";
      split; [done|]; split; [by repeat constructor | done]].
  destruct (usable_dec σ "./tailwind/theme.js") as [Ht|Ht];
    [|right; exists 2, "./tailwind/theme.js";
      split; [done|]; split; [by repeat constructor | done]].
  destruct (usable_dec σ "./tailwind/safelist.js") as [Hl|Hl];
    [|right; exists 3, "./tailwind/safelist.js";
      split; [done|]; split; [by repeat constructor | done]].
  left. by repeat constructor.
Qed.

(** A record is exported exactly from four usable modules, and is then the
    object literal over what they export under the imported names. *)
Lemma exported_inv (σ : registry plugin) (v : jsval) :
  exported σ = Some v →
  ∃ ec es et el,
    (σ !! "./tailwind/colors.js" = Some ec ∧ nullish ec = false)
    ∧ (σ !! "./tailwind/spacing.js" = Some es ∧ nullish es = false)
    ∧ (σ !! "./tailwind/theme.js" = Some et ∧ nullish et = false)
    ∧ (σ !! "./tailwind/safelist.js" = Some el ∧ nullish el = false)
    ∧ v = module_exports (imported "colors" ec) (imported "spacing" es)
            (imported "minWidth" es) (imported "maxWidth" es)
            (imported "fontFamily" et) (imported "fontSize" et)
            (imported "borderRadius" et) (imported "borderWidth" et)
            (imported "boxShadow" et) (imported "variants" et)
            (imported "safelist" el).
Proof.
  intros Hv. unfold exported in Hv.
  destruct (first_unusable σ) as [Hall|(i & id & Hi & Hbefore & Hun)].
  - destruct (usable_all σ Hall)
      as (ec & es & et & el & [Hc Hcd] & [Hs Hsd] & [Ht Htd] & [Hl Hld]).
    rewrite (tailwind_config_usable σ ec es et el) in Hv by done.
    injection Hv as <-. by exists ec, es, et, el.
  - by rewrite (tailwind_config_unusable σ i id) in Hv.
Qed.

(** X1: the configuration loads exactly when each of the four modules is
    registered with an export value other than [undefined] and [null]. *)
Theorem load_succeeds_iff (σ : registry plugin) :
  is_Some (exported σ) ↔ Forall (usable σ) module_ids.
Proof.
  split.
  - intros [v Hv].
    destruct (exported_inv σ v Hv) as (ec & es & et & el & ? & ? & ? & ? & _).
    unfold module_ids, usable. repeat constructor; by eexists.
  - intros Hall.
    destruct (usable_all σ Hall)
      as (ec & es & et & el & [Hc Hcd] & [Hs Hsd] & [Ht Htd] & [Hl Hld]).
    unfold exported.
    rewrite (tailwind_config_usable σ ec es et el) by done. by eexists.
Qed.

(** X2: when a module is not usable and the modules required before it are,
    loading fails with that module's error (not found if it is not
    registered, a type error if it exports [undefined] or [null]) whatever
    the later modules are; nothing is exported and the registry is left as
    it was. *)
Theorem load_fails_at_first (σ : registry plugin) (i : nat) (id : string) :
  module_ids !! i = Some id →
  Forall (usable σ) (take i module_ids) →
  ¬ usable σ id →
  tailwind_config σ
  = (inl (match σ !! id with
          | None => MODULE_NOT_FOUND id
          | Some _ => TypeError "Cannot destructure"
          end), σ)
  ∧ exported σ = None.
Proof.
  intros Hi Hbefore Hun.
  pose proof (tailwind_config_unusable σ i id Hi Hbefore Hun) as Hrun.
  split; [exact Hrun|]. unfold exported. by rewrite Hrun.
Qed.

Lemma load_fails_at_first_witness :
  let σ : registry plugin :=
    props [("./tailwind/colors.js", obj []);
           ("./tailwind/safelist.js", Safelist.exports)] in
  module_ids !! 1 = Some "./tailwind/spacing.js"
  ∧ Forall (usable σ) (take 1 module_ids)
  ∧ ¬ usable σ "./tailwind/spacing.js"
  ∧ tailwind_config σ
    = (inl (MODULE_NOT_FOUND "./tailwind/spacing.js"), σ)
  ∧ exported σ = None.
Proof.
  intros σ.
  assert (Hbefore : Forall (usable σ) (take 1 module_ids)).
  { constructor; [|constructor]. eexists. split; reflexivity. }
  assert (Hun : ¬ usable σ "./tailwind/spacing.js").
  { intros (e & He & _). discriminate He. }
  split; [reflexivity|]. split; [exact Hbefore|]. split; [exact Hun|].
  exact (load_fails_at_first σ 1 "./tailwind/spacing.js" eq_refl Hbefore Hun).
Defined.

(** X3: whatever the four modules are, each of the eleven imported names is
    found in the exported record at its place, with the value its module
    exports under that name, or [undefined] if the module exports none. *)
Theorem imports_verbatim (σ : registry plugin) (v : jsval)
    (id name : string) (place : list sel) (e : jsval) :
  exported σ = Some v →
  (id, name, place) ∈ imports →
  σ !! id = Some e →
  get_path place v = Some (imported name e).
Proof.
  intros Hv Hin He.
  destruct (exported_inv σ v Hv)
    as (ec & es & et & el & [Hc _] & [Hs _] & [Ht _] & [Hl _] & ->).
  unfold imports in Hin. unfold jsval in *.
  repeat (apply elem_of_cons in Hin as [[= -> -> ->]|Hin];
          [simplify_eq; reflexivity|]).
  by apply elem_of_nil in Hin.
Qed.

Lemma imports_verbatim_witness :
  exported Sample.registry
  = Some (module_exports (export "colors" Sample.colors_js)
            (export "spacing" Sample.spacing_js)
            (export "minWidth" Sample.spacing_js)
            (export "maxWidth" Sample.spacing_js)
            Theme.fontFamily Theme.fontSize Theme.borderRadius
            Theme.borderWidth Theme.boxShadow Theme.variants
            Safelist.safelist)
  ∧ ("./tailwind/theme.js", "boxShadow", at_boxShadow) ∈ imports
  ∧ Sample.registry !! "./tailwind/theme.js" = Some Theme.exports
  ∧ get_path at_boxShadow
      (module_exports (export "colors" Sample.colors_js)
         (export "spacing" Sample.spacing_js)
         (export "minWidth" Sample.spacing_js)
         (export "maxWidth" Sample.spacing_js)
         Theme.fontFamily Theme.fontSize Theme.borderRadius
         Theme.borderWidth Theme.boxShadow Theme.variants
         Safelist.safelist)
    = Some (imported "boxShadow" Theme.exports).
Proof.
  assert (Hin : ("./tailwind/theme.js", "boxShadow", at_boxShadow) ∈ imports).
  { do 8 apply list_elem_of_further. apply list_elem_of_here. }
  split; [reflexivity|]. split; [exact Hin|]. split; [reflexivity|].
  exact (imports_verbatim Sample.registry _ _ _ _ Theme.exports
           eq_refl Hin eq_refl).
Defined.

(** X4: the shape of the exported record does not depend on the registry.
    Every exported record has the same field names at the top level, in
    [options], [theme], [theme.extend] and [corePlugins], and holds a value
    at the place of each imported name: a module that lacks an export leaves
    the field in place, with the value [undefined]. *)
Theorem exported_shape_fixed (σ : registry plugin) (v : jsval) :
  exported σ = Some v →
  keys v = {[ "content"; "options"; "enabled"; "theme"; "variants";
              "corePlugins"; "plugins" ]}
  ∧ keys <$> get (Field "options") v = Some {[ "safelist" ]}
  ∧ keys <$> get (Field "theme") v
    = Some {[ "fontFamily"; "minWidth"; "maxWidth"; "boxShadow"; "extend" ]}
  ∧ keys <$> get_path [Field "theme"; Field "extend"] v
    = Some {[ "fontSize"; "spacing"; "borderRadius"; "borderWidth"; "colors" ]}
  ∧ Forall (λ imp, is_Some (get_path imp.2 v)) imports.
Proof.
  intros Hv.
  apply exported_literal in Hv
    as (c & s & mn & mx & ff & fs & br & bw & bs & va & sl & ->).
  split; [apply module_exports_keys|].
  split; [reflexivity|]. split; [reflexivity|]. split; [reflexivity|].
  repeat constructor; by eexists.
Qed.

Lemma exported_shape_fixed_witness :
  ∃ v, exported (modules ∅ ∅) = Some v
     ∧ get_path at_colors v = Some VUndef
     ∧ keys v = {[ "content"; "options"; "enabled"; "theme"; "variants";
                   "corePlugins"; "plugins" ]}
     ∧ keys <$> get (Field "options") v = Some {[ "safelist" ]}
     ∧ keys <$> get (Field "theme") v
       = Some {[ "fontFamily"; "minWidth"; "maxWidth"; "boxShadow";
                 "extend" ]}
     ∧ keys <$> get_path [Field "theme"; Field "extend"] v
       = Some {[ "fontSize"; "spacing"; "borderRadius"; "borderWidth";
                 "colors" ]}
     ∧ Forall (λ imp, is_Some (get_path imp.2 v)) imports.
Proof.
  eexists. split; [reflexivity|]. split; [reflexivity|].
  exact (exported_shape_fixed (modules ∅ ∅) _ eq_refl).
Defined.

(** X5: no import can change the fields the module writes as literals: in
    any two exported records, from whatever registries, [content],
    [enabled], [corePlugins] and [plugins] are equal, [enabled] being
    [true]. *)
Theorem literal_fields_fixed (σ σ' : registry plugin) (v v' : jsval)
    (k : string) :
  exported σ = Some v →
  exported σ' = Some v' →
  k ∈ ["content"; "enabled"; "corePlugins"; "plugins"] →
  get (Field k) v = get (Field k) v'
  ∧ is_Some (get (Field k) v)
  ∧ get (Field "enabled") v = Some (VBool true).
Proof.
  intros Hv Hv' Hk.
  apply exported_literal in Hv
    as (c & s & mn & mx & ff & fs & br & bw & bs & va & sl & ->).
  apply exported_literal in Hv'
    as (c' & s' & mn' & mx' & ff' & fs' & br' & bw' & bs' & va' & sl' & ->).
  repeat (apply elem_of_cons in Hk as [->|Hk];
          [split; [reflexivity|]; split; [by eexists | reflexivity]|]).
  by apply elem_of_nil in Hk.
Qed.

Lemma literal_fields_fixed_witness :
  ∃ v v', exported Sample.registry = Some v
        ∧ exported (modules ∅ ∅) = Some v'
        ∧ "enabled" ∈ ["content"; "enabled"; "corePlugins"; "plugins"]
        ∧ get (Field "enabled") v = get (Field "enabled") v'
        ∧ is_Some (get (Field "enabled") v)
        ∧ get (Field "enabled") v = Some (VBool true).
Proof.
  assert (Hk : "enabled" ∈ ["content"; "enabled"; "corePlugins"; "plugins"]).
  { apply list_elem_of_further, list_elem_of_here. }
  eexists _, _. split; [reflexivity|]. split; [reflexivity|].
  split; [exact Hk|].
  exact (literal_fields_fixed Sample.registry (modules ∅ ∅) _ _ "enabled"
           eq_refl eq_refl Hk).
Defined.

Lemma usable_agree (σ σ' : registry plugin) (id : string) :
  σ !! id = σ' !! id → usable σ id → usable σ' id.
Proof. unfold usable. by intros <-. Qed.

(** X6: loading reads the registry at the four module identifiers only: two
    registries that agree on these give the same outcome, be it the record
    or the error. *)
Theorem load_reads_four_modules (σ σ' : registry plugin) :
  (∀ id, id ∈ module_ids → σ !! id = σ' !! id) →
  (tailwind_config σ).1 = (tailwind_config σ').1
  ∧ exported σ = exported σ'.
Proof.
  intros Hagree.
  assert (Hfst : (tailwind_config σ).1 = (tailwind_config σ').1).
  { destruct (first_unusable σ) as [Hall|(i & id & Hi & Hbefore & Hun)].
    - assert (Hall' : Forall (usable σ') module_ids).
      { rewrite Forall_forall in Hall. apply Forall_forall. intros id Hid.
        apply (usable_agree σ σ' id); auto. }
      destruct (usable_all σ Hall)
        as (ec & es & et & el & [Hc Hcd] & [Hs Hsd] & [Ht Htd] & [Hl Hld]).
      rewrite (tailwind_config_usable σ ec es et el) by done.
      rewrite (tailwind_config_usable σ' ec es et el); [done|..]; try done;
        (rewrite <- Hagree; [done|]); unfold module_ids;
        repeat first [apply list_elem_of_here | apply list_elem_of_further].
    - assert (Hid : id ∈ module_ids) by by eapply list_elem_of_lookup_2.
      rewrite (tailwind_config_unusable σ i id) by done.
      rewrite (tailwind_config_unusable σ' i id); [| done | |].
      + unfold import_error. by rewrite (Hagree id Hid).
      + rewrite Forall_forall in Hbefore. apply Forall_forall. intros id' Hid'.
        apply (usable_agree σ σ' id'); [|auto].
        apply Hagree. by eapply subseteq_take.
      + intros Hus. apply Hun. apply (usable_agree σ' σ id); [|done].
        symmetry. by apply Hagree. }
  split; [exact Hfst|]. unfold exported.
  destruct (tailwind_config σ) as [r τ], (tailwind_config σ') as [r' τ'].
  cbn in Hfst. by subst r'.
Qed.

Lemma load_reads_four_modules_witness :
  let σ' : registry plugin := <["./tailwind/fonts.js" := VUndef]> Sample.registry in
  (∀ id, id ∈ module_ids → Sample.registry !! id = σ' !! id)
  ∧ (tailwind_config Sample.registry).1 = (tailwind_config σ').1
  ∧ exported Sample.registry = exported σ'.
Proof.
  intros σ'.
  assert (Hagree : ∀ id, id ∈ module_ids → Sample.registry !! id = σ' !! id).
  { intros id Hid. unfold module_ids in Hid.
    repeat (apply elem_of_cons in Hid as [->|Hid]; [reflexivity|]).
    by apply elem_of_nil in Hid. }
  split; [exact Hagree|].
  exact (load_reads_four_modules Sample.registry σ' Hagree).
Defined.

(** X7: the exported record depends on the registry through the eleven
    imported values only.  A registry with usable modules that export the
    same values under the imported names gives the same record, whatever
    else its modules export. *)
Theorem exported_depends_on_imports (σ σ' : registry plugin) (v : jsval) :
  exported σ = Some v →
  Forall (usable σ') module_ids →
  (∀ id name place, (id, name, place) ∈ imports →
     imported name <$> σ !! id = imported name <$> σ' !! id) →
  exported σ' = Some v.
Proof.
  intros Hv Hall' Hsame.
  destruct (exported_inv σ v Hv)
    as (ec & es & et & el & [Hc _] & [Hs _] & [Ht _] & [Hl _] & ->).
  destruct (usable_all σ' Hall')
    as (ec' & es' & et' & el' & [Hc' Hcd] & [Hs' Hsd] & [Ht' Htd] & [Hl' Hld]).
  unfold exported.
  rewrite (tailwind_config_usable σ' ec' es' et' el') by done.
  assert (Heq : Forall (λ imp,
            imported imp.1.2 <$> σ !! imp.1.1
            = imported imp.1.2 <$> σ' !! imp.1.1) imports).
  { apply Forall_forall. intros [[id name] place] Hin. by eapply Hsame. }
  unfold imports in Heq. rewrite !Forall_cons in Heq. cbn [fst snd] in Heq.
  unfold jsval in *.
  rewrite Hc, Hs, Ht, Hl, Hc', Hs', Ht', Hl' in Heq. cbn [fmap option_fmap option_map] in Heq.
  destruct Heq as ([= ->] & [= ->] & [= ->] & [= ->] & [= ->] & [= ->]
                   & [= ->] & [= ->] & [= ->] & [= ->] & [= ->] & _).
  reflexivity.
Qed.

Lemma exported_depends_on_imports_witness :
  let σ' : registry plugin :=
    modules (<["palette" := VStr "dark"]> Sample.colors_js) Sample.spacing_js in
  ∃ v, exported Sample.registry = Some v
     ∧ Forall (usable σ') module_ids
     ∧ (∀ id name place, (id, name, place) ∈ imports →
          imported name <$> Sample.registry !! id = imported name <$> σ' !! id)
     ∧ exported σ' = Some v.
Proof.
  intros σ'.
  assert (Hall' : Forall (usable σ') module_ids).
  { repeat constructor; eexists; (split; reflexivity). }
  assert (Hsame : ∀ id name place, (id, name, place) ∈ imports →
            imported name <$> Sample.registry !! id
            = imported name <$> σ' !! id).
  { intros id name place Hin. unfold imports in Hin.
    repeat (apply elem_of_cons in Hin as [[= -> -> ->]|Hin]; [reflexivity|]).
    by apply elem_of_nil in Hin. }
  eexists. split; [reflexivity|]. split; [exact Hall'|]. split; [exact Hsame|].
  exact (exported_depends_on_imports Sample.registry σ' _ eq_refl Hall' Hsame).
Defined.

(** X8: the imports from [tailwind/theme.js] and [tailwind/safelist.js]
    resolve.  The names destructured from each of the two modules are
    exactly the names it exports, so on the repository's modules none of the
    seven tables imported from them is [undefined] in the exported
    record. *)
Theorem theme_imports_resolve (cj sj : gmap string jsval) :
  list_to_set (imported_names "./tailwind/theme.js") = keys Theme.exports
  ∧ list_to_set (imported_names "./tailwind/safelist.js")
    = keys Safelist.exports
  ∧ ∃ v, exported (modules cj sj) = Some v
       ∧ Forall (λ place, ∃ x, get_path place v = Some x ∧ x ≠ VUndef)
           [at_fontFamily; at_fontSize; at_borderRadius; at_borderWidth;
            at_boxShadow; at_variants; at_safelist].
Proof.
  split; [reflexivity|]. split; [reflexivity|].
  on_export. repeat constructor; eexists; (split; [reflexivity | discriminate]).
Qed.

(* ===================================================================== *)
(** * The entries of the token tables *)
(* ===================================================================== *)

(** A check that holds of an object holds of each of its properties. *)
Lemma all_props_get {F} (P : string → value F → bool) (v : value F) k x :
  all_props P v = true → get (Field k) v = Some x → P k x = true.
Proof.
  destruct v; try done. cbn [all_props get]. intros Hall. revert k x.
  revert Hall.
  apply (map_fold_weak_ind
           (λ r m, r = true → ∀ k x, m !! k = Some x → P k x = true)).
  - intros _ k x Hk. by rewrite lookup_empty in Hk.
  - intros i y m' r Hfresh IH Hr k x Hk.
    apply andb_true_iff in Hr as [Hy Hr].
    destruct (decide (i = k)) as [->|Hne].
    + rewrite lookup_insert_eq in Hk. by injection Hk as <-.
    + rewrite lookup_insert_ne in Hk by done. by apply (IH Hr k x).
Qed.

Lemma is_font_size_entry_inv (x : jsval) :
  is_font_size_entry x = true →
  ∃ size rest, x = VArr [VStr size; rest] ∧ is_px size = true
    ∧ ((∃ lineHeight, rest = VStr lineHeight ∧ is_px lineHeight = true)
       ∨ (∃ lineHeight, get (Field "lineHeight") rest = Some (VStr lineHeight)
                        ∧ is_px lineHeight = true)).
Proof.
  destruct x as [| | | |l| |]; try done.
  destruct l as [|[| | |size| | |] [|rest [|]]]; try done;
    destruct rest as [| | |lineHeight| |settings|]; try done;
    cbn [is_font_size_entry].
  - intros [Hsize Hlh]%andb_true_iff. exists size, (VStr lineHeight).
    split; [done|]. split; [done|]. left. by exists lineHeight.
  - intros [Hsize Hlh]%andb_true_iff. exists size, (VObj settings).
    split; [done|]. split; [done|]. right. cbn [get].
    destruct (settings !! "lineHeight") as [[| | |lineHeight| | |]|]; try done.
    by exists lineHeight.
Qed.

(** X9: every entry of the [fontSize] table is a two-element array: a size
    in whole pixels, then a line height in whole pixels, given either as a
    string or as the [lineHeight] of an object of further settings. *)
Theorem fontSize_entries_wellformed (k : string) (x : jsval) :
  get (Field k) Theme.fontSize = Some x →
  ∃ size rest, x = VArr [VStr size; rest] ∧ is_px size = true
    ∧ ((∃ lineHeight, rest = VStr lineHeight ∧ is_px lineHeight = true)
       ∨ (∃ lineHeight, get (Field "lineHeight") rest = Some (VStr lineHeight)
                        ∧ is_px lineHeight = true)).
Proof.
  intros Hk. apply is_font_size_entry_inv.
  apply (all_props_get (λ _, is_font_size_entry) Theme.fontSize k x);
    [by vm_compute | exact Hk].
Qed.

Lemma fontSize_entries_wellformed_witness :
  get (Field "overline") Theme.fontSize
  = Some (VArr [VStr "10px";
                obj [("lineHeight", VStr "16px");
                     ("letterSpacing", VStr "0.04em");
                     ("textTransform", VStr "uppercase")]])
  ∧ ∃ size rest,
      (VArr [VStr "10px";
             obj [("lineHeight", VStr "16px");
                  ("letterSpacing", VStr "0.04em");
                  ("textTransform", VStr "uppercase")]] : jsval)
      = VArr [VStr size; rest] ∧ is_px size = true
      ∧ ((∃ lineHeight, rest = VStr lineHeight ∧ is_px lineHeight = true)
         ∨ (∃ lineHeight,
              get (Field "lineHeight") rest = Some (VStr lineHeight)
              ∧ is_px lineHeight = true)).
Proof.
  split; [reflexivity|].
  exact (fontSize_entries_wellformed "overline" _ eq_refl).
Defined.

(** X10: in the [borderRadius] table every key names its own value: the
    radius under the key [k] is the string [k] followed by [px]. *)
Theorem borderRadius_key_is_pixels (k : string) (x : jsval) :
  get (Field k) Theme.borderRadius = Some x → x = VStr (k +:+ "px").
Proof.
  intros Hk.
  assert (Hx : is_px_of_key k x = true).
  { apply (all_props_get is_px_of_key Theme.borderRadius k x);
      [by vm_compute | exact Hk]. }
  destruct x; try done. cbn in Hx. by apply String.eqb_eq in Hx as ->.
Qed.

Lemma borderRadius_key_is_pixels_witness :
  get (Field "12") Theme.borderRadius = Some (VStr "12px")
  ∧ (VStr "12px" : jsval) = VStr ("12" +:+ "px").
Proof.
  split; [reflexivity|].
  exact (borderRadius_key_is_pixels "12" (VStr "12px") eq_refl).
Defined.

(** X11: in the [borderWidth] table the width under a key [k] other than
    [DEFAULT] and [0] is the string [k] followed by [px]; the default width
    is [1px] and the width [0] is written without a unit. *)
Theorem borderWidth_key_is_pixels (k : string) (x : jsval) :
  get (Field k) Theme.borderWidth = Some x →
  x = (if decide (k = "DEFAULT") then VStr "1px"
       else if decide (k = "0") then VStr "0"
       else VStr (k +:+ "px")).
Proof.
  intros Hk.
  assert (Hx : (if decide (k = "DEFAULT") then is_px_of_key "1" x
                else if decide (k = "0")
                     then match x with VStr s => String.eqb s "0" | _ => false end
                     else is_px_of_key k x) = true).
  { apply (all_props_get
             (λ k x, if decide (k = "DEFAULT") then is_px_of_key "1" x
                     else if decide (k = "0")
                          then match x with
                               | VStr s => String.eqb s "0"
                               | _ => false
                               end
                          else is_px_of_key k x) Theme.borderWidth k x);
      [by vm_compute | exact Hk]. }
  repeat case_decide; destruct x; try done; cbn in Hx;
    by apply String.eqb_eq in Hx as ->.
Qed.

Lemma borderWidth_key_is_pixels_witness :
  get (Field "DEFAULT") Theme.borderWidth = Some (VStr "1px")
  ∧ (VStr "1px" : jsval)
    = (if decide ("DEFAULT" = "DEFAULT") then VStr "1px"
       else if decide ("DEFAULT" = "0") then VStr "0"
       else VStr ("DEFAULT" +:+ "px")).
Proof.
  split; [reflexivity|].
  exact (borderWidth_key_is_pixels "DEFAULT" (VStr "1px") eq_refl).
Defined.

(** X12: the [variants] table has the one field [extend], and each rule in
    it enables, for its property, a non-empty array of state modifiers
    taken from [disabled], [group-hover] and [active]. *)
Theorem variants_rules_wellformed (k : string) (x : jsval) :
  get_path [Field "extend"; Field k] Theme.variants = Some x →
  keys Theme.variants = {[ "extend" ]}
  ∧ ∃ y l, x = VArr (y :: l)
         ∧ Forall (λ z, ∃ s, z = VStr s
                           ∧ s ∈ ["disabled"; "group-hover"; "active"])
             (y :: l).
Proof.
  intros Hk. split; [reflexivity|].
  cbn [get_path] in Hk.
  destruct (get (Field "extend") Theme.variants) as [rules|] eqn:Hrules;
    [|done].
  destruct (get (Field k) rules) as [x'|] eqn:Hx; [|done].
  injection Hk as ->.
  assert (Hok : is_modifier_list x = true).
  { apply (all_props_get (λ _, is_modifier_list) rules k x); [|exact Hx].
    injection Hrules as <-. by vm_compute. }
  destruct x as [| | | |[|y l]| |]; try done. exists y, l. split; [done|].
  cbn [is_modifier_list] in Hok. rewrite forallb_forall in Hok.
  apply Forall_forall. intros z Hz. apply list_elem_of_In in Hz.
  specialize (Hok z Hz). destruct z as [| | |s| | |]; try done.
  exists s. split; [done|]. cbn [is_modifier] in Hok.
  by apply bool_decide_eq_true in Hok.
Qed.

Lemma variants_rules_wellformed_witness :
  get_path [Field "extend"; Field "border"] Theme.variants
  = Some (strs ["group-hover"; "active"])
  ∧ keys Theme.variants = {[ "extend" ]}
  ∧ ∃ y l, (strs ["group-hover"; "active"] : jsval) = VArr (y :: l)
         ∧ Forall (λ z, ∃ s, z = VStr s
                           ∧ s ∈ ["disabled"; "group-hover"; "active"])
             (y :: l).
Proof.
  split; [reflexivity|].
  exact (variants_rules_wellformed "border" _ eq_refl).
Defined.


(** X14: the safelist array consists of 17 string literals, one of which is
    repeated: [group-hover:border-kilvish-600] is both its sixth and its
    thirteenth element, and the other entries are pairwise distinct. *)
Theorem safelist_one_duplicate :
  length (elems Safelist.safelist) = 17
  ∧ length (literals Safelist.safelist) = 17
  ∧ literals Safelist.safelist !! 5 = Some "group-hover:border-kilvish-600"
  ∧ literals Safelist.safelist !! 12 = Some "group-hover:border-kilvish-600"
  ∧ ¬ NoDup (literals Safelist.safelist)
  ∧ NoDup (delete 12 (literals Safelist.safelist)).
Proof.
  split; [reflexivity|]. split; [reflexivity|]. split; [reflexivity|].
  split; [reflexivity|]. split.
  - apply (bool_decide_unpack (¬ NoDup (literals Safelist.safelist))).
    by vm_compute.
  - apply (bool_decide_unpack (NoDup (delete 12 (literals Safelist.safelist)))).
    by vm_compute.
Qed.
